(** * The Snuba tag-store backend (sentry/tagstore/snuba/backend.py)

    A shallow embedding of [SnubaTagStorage]: every public method builds
    one query descriptor, hands it to [snuba.query] and maps the answer
    to tag records.  The engine behind [snuba.query] and the wall clock
    are the only things the methods touch, so a call is a computation
    over a world made of the clock reading and the log of the queries
    issued so far; exceptions are outcomes. *)

From Stdlib Require Import ZArith List String Bool Sorted Lia.
Import ListNotations.
Open Scope string_scope.
Open Scope Z_scope.
Local Set Warnings "-register-all".

(** ** Python values *)

(** Hashable scalars: what the backend receives as ids, tag keys and tag
    values, and what the engine uses as group-by keys. *)
Inductive atom : Type :=
| ANone
| AInt (n : Z)
| AStr (s : string).

(** A value handed back by [snuba.query]: a scalar, or an (ordered)
    mapping from group-by key to a nested value. *)
Inductive pyval : Type :=
| VAtom (a : atom)
| VDict (items : list (atom * pyval)).

Definition VNone : pyval := VAtom ANone.
Definition VInt (n : Z) : pyval := VAtom (AInt n).
Definition VStr (s : string) : pyval := VAtom (AStr s).

Definition atom_eqb (a b : atom) : bool :=
  match a, b with
  | ANone, ANone => true
  | AInt x, AInt y => x =? y
  | AStr x, AStr y => String.eqb x y
  | _, _ => false
  end.

(** Python truth value: [None], [0], [''] and the empty mapping are
    false. *)
Definition truthy (v : pyval) : bool :=
  match v with
  | VAtom ANone => false
  | VAtom (AInt n) => negb (n =? 0)
  | VAtom (AStr s) => negb (String.eqb s "")
  | VDict [] => false
  | VDict (_ :: _) => true
  end.

(** [v == 0]. *)
Definition eq_zero (v : pyval) : bool :=
  match v with
  | VAtom (AInt n) => n =? 0
  | _ => false
  end.

(** ** Dictionaries as insertion-ordered association lists *)

Section Dict.
Context {K V : Type} (eqb : K -> K -> bool).

Fixpoint dict_get (k : K) (d : list (K * V)) : option V :=
  match d with
  | [] => None
  | (k', v) :: d' => if eqb k k' then Some v else dict_get k d'
  end.

(** [d[k] = v]: an existing key keeps its place, a new one goes last. *)
Fixpoint dict_set (k : K) (v : V) (d : list (K * V)) : list (K * V) :=
  match d with
  | [] => [(k, v)]
  | (k', v') :: d' =>
      if eqb k k' then (k', v) :: d' else (k', v') :: dict_set k v d'
  end.

(** [d.update(e)]. *)
Definition dict_update (d e : list (K * V)) : list (K * V) :=
  fold_left (fun acc kv => dict_set (fst kv) (snd kv) acc) e d.

Definition dict_keys (d : list (K * V)) : list K := map fst d.

Definition dict_mem (k : K) (d : list (K * V)) : bool :=
  match dict_get k d with Some _ => true | None => false end.
End Dict.

(** ** Exceptions and outcomes *)

Inductive exn : Type :=
| TagKeyNotFound
| GroupTagKeyNotFound
| TagValueNotFound
| GroupTagValueNotFound
| NotImplementedError
| AssertionError
| TypeError
| AttributeError
| KeyError
| IndexError
| EngineError (msg : string).

Inductive outcome (A : Type) : Type :=
| Ret (a : A)
| Raise (e : exn).
Arguments Ret {A} a.
Arguments Raise {A} e.

Definition obind {A B} (o : outcome A) (f : A -> outcome B) : outcome B :=
  match o with
  | Ret a => f a
  | Raise e => Raise e
  end.

(** A comprehension [[f x for x in xs]] whose body may raise: the first
    failure ends it. *)
Fixpoint omap {A B} (f : A -> outcome B) (xs : list A) : outcome (list B) :=
  match xs with
  | [] => Ret []
  | x :: xs' =>
      obind (f x) (fun y => obind (omap f xs') (fun ys => Ret (y :: ys)))
  end.

(** ** Query descriptors: the arguments of [snuba.query] *)

Inductive literal : Type :=
| LAtom (a : atom)
| LList (l : list atom).

(** A condition [[column, operator, literal]]. *)
Definition clause : Type := (string * string * literal)%type.

(** An entry of the top-level condition list: one clause, or a list of
    clauses to be OR-ed. *)
Inductive cond_item : Type :=
| Simple (c : clause)
| OrGroup (cs : list clause).

(** An aggregation [[function, column, alias]]. *)
Definition aggregation : Type := (string * string * string)%type.

(** The arguments of one call of [snuba.query].  An argument the caller
    leaves out and an explicit [None] are both [None] here. *)
Record Query : Type := mkQuery {
  q_start : Z;
  q_end : Z;
  q_groupby : list string;
  q_conditions : option (list cond_item);
  q_filters : list (string * list atom);
  q_aggregations : option (list aggregation);
  q_limit : option Z;
  q_orderby : option string
}.

(** ** The world and the computation monad *)

(** [clock] is what [timezone.now()] reads, in microseconds; [issued]
    logs the calls of [snuba.query], oldest first. *)
Record World : Type := mkWorld {
  clock : Z;
  issued : list Query
}.

Definition M (A : Type) : Type := World -> outcome A * World.

Definition ret {A} (a : A) : M A := fun w => (Ret a, w).
Definition raise {A} (e : exn) : M A := fun w => (Raise e, w).
Definition bind {A B} (m : M A) (f : A -> M B) : M B :=
  fun w =>
    match m w with
    | (Ret a, w') => f a w'
    | (Raise e, w') => (Raise e, w')
    end.
Definition lift {A} (o : outcome A) : M A := fun w => (o, w).

Declare Scope py_scope.
Delimit Scope py_scope with py.
Notation "x <- m ;; k" := (bind m (fun x => k))
  (at level 61, m at next level, right associativity) : py_scope.
Notation "' pat <- m ;; k" := (bind m (fun x => match x with pat => k end))
  (at level 61, pat pattern, m at next level, right associativity) : py_scope.
Open Scope py_scope.

Definition timezone_now : M Z := fun w => (Ret (clock w), w).

(** [timedelta(days=d)] in microseconds. *)
Definition timedelta_days (d : Z) : Z := d * 86400000000.

(** An argument with a default value: [None] when the caller omits it. *)
Definition default {A} (d : A) (arg : option A) : A :=
  match arg with
  | Some a => a
  | None => d
  end.

(** ** Python-level helpers on engine values *)

(** [v.items()] / [six.iteritems(v)]: only a mapping has them. *)
Definition items_of (v : pyval) : outcome (list (atom * pyval)) :=
  match v with
  | VDict items => Ret items
  | VAtom _ => Raise AttributeError
  end.

(** [v.keys()]. *)
Definition keys_of (v : pyval) : outcome (list atom) :=
  obind (items_of v) (fun items => Ret (dict_keys items)).

(** [v[k]]: a missing key is a [KeyError], a scalar cannot be indexed by
    a column name. *)
Definition getitem (v : pyval) (k : string) : outcome pyval :=
  match v with
  | VDict items =>
      match dict_get atom_eqb (AStr k) items with
      | Some x => Ret x
      | None => Raise KeyError
      end
  | VAtom _ => Raise TypeError
  end.

(** [v.update(e)]. *)
Definition py_update (v : pyval) (e : list (atom * pyval)) : outcome pyval :=
  match v with
  | VDict items => Ret (VDict (dict_update atom_eqb items e))
  | VAtom _ => Raise AttributeError
  end.

(** [l[0]]. *)
Definition first_of {A} (l : list A) : outcome A :=
  match l with
  | x :: _ => Ret x
  | [] => Raise IndexError
  end.

(** ** Tag records *)

(** The four record classes of [sentry.tagstore.types]. *)
Inductive cls : Type :=
| TagKey
| TagValue
| GroupTagKey
| GroupTagValue.

(** Modelled from the spec: the record classes are declared in
    [sentry.tagstore.types], which is not part of this file.  The data
    model gives [TagKey] the attributes key and values_seen, [TagValue]
    key, value, times_seen, first_seen and last_seen, and the two group
    records the same attributes after a group_id. *)
Definition fields (c : cls) : list string :=
  match c with
  | TagKey => ["key"; "values_seen"]
  | TagValue => ["key"; "value"; "times_seen"; "first_seen"; "last_seen"]
  | GroupTagKey => ["group_id"; "key"; "values_seen"]
  | GroupTagValue =>
      ["group_id"; "key"; "value"; "times_seen"; "first_seen"; "last_seen"]
  end.

(** An instance: its class and its attribute values, in field order. *)
Record instance : Type := mkInstance {
  class_of : cls;
  attrs : list (string * pyval)
}.

Definition getattr (i : instance) (name : string) : option pyval :=
  dict_get String.eqb name (attrs i).

(** Modelled from the spec: calling a record class with keyword
    arguments.  As for any Python callable, a keyword that names no
    attribute and an attribute left without a value are a [TypeError];
    otherwise every attribute takes the value of its keyword. *)
Definition construct (c : cls) (kwargs : list (string * pyval))
  : outcome instance :=
  if forallb (fun kv => existsb (String.eqb (fst kv)) (fields c)) kwargs
     && forallb (fun f => dict_mem String.eqb f kwargs) (fields c)
  then
    Ret (mkInstance c
           (map (fun f => (f, match dict_get String.eqb f kwargs with
                              | Some v => v
                              | None => VNone
                              end)) (fields c)))
  else Raise TypeError.

(** The keyword arguments of a call [f(k1=v1, ..., **star)]: [star] must
    be a mapping with string keys, none of them given explicitly too. *)
Fixpoint star_keywords (explicit : list (string * pyval))
  (star : list (atom * pyval)) : outcome (list (string * pyval)) :=
  match star with
  | [] => Ret explicit
  | (AStr k, v) :: star' =>
      if dict_mem String.eqb k explicit then Raise TypeError
      else star_keywords (explicit ++ [(k, v)]) star'
  | _ :: _ => Raise TypeError
  end.

Definition keywords (explicit : list (string * pyval)) (star : pyval)
  : outcome (list (string * pyval)) :=
  match star with
  | VDict items => star_keywords explicit items
  | VAtom _ => Raise TypeError
  end.

(** [functools.partial(cls, **bound)]: the keywords of the later call
    are laid over the bound ones. *)
Definition partial (c : cls) (bound kwargs : list (string * pyval))
  : outcome instance :=
  construct c (dict_update String.eqb bound kwargs).

(** ** ObjectWrapper *)

Record ObjectWrapper : Type := mkObjectWrapper {
  __dict__ : list (string * pyval)
}.

Definition ObjectWrapper_init (dictionary : list (string * pyval))
  : ObjectWrapper :=
  mkObjectWrapper (dict_set String.eqb "id" (VInt 0) dictionary).

(** ** collections.defaultdict(int, items) *)

Record defaultdict : Type := mkDefaultdict {
  dd_items : list (atom * pyval)
}.

Definition defaultdict_int (items : list (atom * pyval)) : defaultdict :=
  mkDefaultdict (dict_update atom_eqb [] items).

(** [d[k]]: a missing key is filled with [int()], that is 0, and the
    dictionary remembers it. *)
Definition dd_getitem (d : defaultdict) (k : atom) : pyval * defaultdict :=
  match dict_get atom_eqb k (dd_items d) with
  | Some v => (v, d)
  | None => (VInt 0, mkDefaultdict (dict_set atom_eqb k (VInt 0) (dd_items d)))
  end.

(** [k in d]. *)
Definition dd_contains (d : defaultdict) (k : atom) : bool :=
  dict_mem atom_eqb k (dd_items d).

(** ** Event users *)

(** The attributes of [sentry.models.EventUser] the backend reads. *)
Record EventUser : Type := mkEventUser {
  eu_project_id : atom;
  ident : atom;
  email : atom;
  username : atom;
  ip_address : atom
}.

Definition SEEN_COLUMN : string := "timestamp".

(** ['tags[{}]'.format(key)]. *)
Definition tag_column (key : string) : string := "tags[" ++ key ++ "]".

Definition is_empty_list (l : literal) : bool :=
  match l with
  | LList [] => true
  | _ => false
  end.

(** [[field(eu) for eu in event_users if field(eu)]]. *)
Definition identifiers (field : EventUser -> atom)
  (event_users : list EventUser) : list atom :=
  map field (filter (fun eu => truthy (VAtom (field eu))) event_users).

(** The OR-ed identity clauses both user methods build: one [IN] clause
    per identity attribute, kept when its value list is not []. *)
Definition or_conditions_of (event_users : list EventUser) : list clause :=
  filter (fun cond : clause => negb (is_empty_list (snd cond)))
    [ ("user_id", "IN", LList (identifiers ident event_users));
      ("email", "IN", LList (identifiers email event_users));
      ("username", "IN", LList (identifiers username event_users));
      ("ip_address", "IN", LList (identifiers ip_address event_users)) ].

(** ** What a condition list means to the engine *)

Section Conditions.

(** A stored row and the truth of one clause on it belong to the
    engine; so does what it makes of an OR-group without any clause,
    which its interface leaves open. *)
Variable Row : Type.
Variable clause_holds : Row -> clause -> bool.
Variable empty_group : bool.

(** Modelled from the spec: the engine that reads the conditions is not
    part of this file.  Its interface takes them as a nested boolean
    expression tree: the entries of the list must all hold, and an
    OR-group with clauses holds when one of them does.  A group without
    clauses is [empty_group]: true for an engine that drops such a
    group, false for one that reads it as an empty disjunction. *)
Definition item_holds (r : Row) (i : cond_item) : bool :=
  match i with
  | Simple c => clause_holds r c
  | OrGroup [] => empty_group
  | OrGroup cs => existsb (clause_holds r) cs
  end.

Definition conditions_hold (r : Row) (conds : option (list cond_item))
  : bool :=
  match conds with
  | None => true
  | Some items => forallb (item_holds r) items
  end.

End Conditions.

(** ** The engine *)

(** What [snuba.query] comes back with: an answer, or a failure of the
    engine's own. *)
Inductive reply : Type :=
| Answer (v : pyval)
| Failure (msg : string).

Definition outcome_of_reply (r : reply) : outcome pyval :=
  match r with
  | Answer v => Ret v
  | Failure msg => Raise (EngineError msg)
  end.

(** The row of a value query: the three aggregates under their aliases. *)
Definition stats_row (times_seen : Z) (first_seen last_seen : pyval) : pyval :=
  VDict [(AStr "times_seen", VInt times_seen);
         (AStr "first_seen", first_seen);
         (AStr "last_seen", last_seen)].

(** ** Sample data for the examples *)

(** An engine that gives every query the same answer. *)
Definition answering (v : pyval) : Query -> reply := fun _ => Answer v.

(** A world whose clock reads 2018-11-03 12:00:00 UTC, before any query. *)
Definition noon : World := mkWorld 1541246400000000 [].

(** A status enumeration to run the status assertion on. *)
Inductive SampleStatus : Type :=
| SVisible
| SPendingDeletion
| SDeletionInProgress.

Definition SampleStatus_eq_dec (a b : SampleStatus) : {a = b} + {a <> b}.
Proof. decide equality. Defined.

(** An event user without any identity, and one known by e-mail and
    address. *)
Definition anonymous : EventUser :=
  mkEventUser (AInt 1) ANone (AStr "") ANone ANone.

Definition jane : EventUser :=
  mkEventUser (AInt 1) ANone (AStr "jane@example.com") ANone
    (AStr "10.0.0.1").

(** ** SnubaTagStorage *)

Section Backend.

(** [sentry.tagstore.TagKeyStatus] is declared outside this file; the
    backend only compares a status with its member [VISIBLE]. *)
Variable Status : Type.
Variable VISIBLE : Status.
Variable Status_eq_dec : forall a b : Status, {a = b} + {a <> b}.

(** The engine behind [snuba.query]; its failures travel up
    unchanged. *)
Variable engine : Query -> reply.

Definition snuba_query (q : Query) : M pyval :=
  fun w => (outcome_of_reply (engine q),
            mkWorld (clock w) (issued w ++ [q])).

Definition status_is (a b : Status) : bool :=
  if Status_eq_dec a b then true else false.

Definition get_time_range (days : option Z) : M (Z * Z) :=
  let days := default 90 days in
  end_ <- timezone_now ;;
  ret (end_ - timedelta_days days, end_).

(** Each method below is split where it calls [snuba.query]: the
    [_query] definition is the descriptor it builds, the method itself
    reads the clock, issues the descriptor and maps the answer. *)

Definition __get_tag_key_query (start end_ : Z)
  (project_id group_id environment_id : atom) (key : string) : Query :=
  let tag := tag_column key in
  let filters :=
    [("project_id", [project_id]); ("environment", [environment_id])] in
  let filters :=
    match group_id with
    | ANone => filters
    | _ => dict_set String.eqb "issue" [group_id] filters
    end in
  let conditions := [Simple (tag, "!=", LAtom (AStr ""))] in
  let aggregations := [("uniq", tag, "unique_values")] in
  mkQuery start end_ [] (Some conditions) filters (Some aggregations)
    None None.

Definition __get_tag_key (project_id group_id environment_id : atom)
  (key : string) : M instance :=
  '(start, end_) <- get_time_range None ;;
  result <- snuba_query
              (__get_tag_key_query start end_ project_id group_id
                 environment_id key) ;;
  if eq_zero result then
    raise (match group_id with
           | ANone => TagKeyNotFound
           | _ => GroupTagKeyNotFound
           end)
  else
    let data := VDict [(AStr "key", VStr key);
                       (AStr "values_seen", result)] in
    match group_id with
    | ANone =>
        lift (obind (keywords [] data) (construct TagKey))
    | _ =>
        lift (obind (keywords [("group_id", VAtom group_id)] data)
                (construct GroupTagKey))
    end.

Definition __get_tag_keys_query (start end_ : Z)
  (project_id group_id environment_id : atom) (limit : option Z) : Query :=
  let filters :=
    [("project_id", [project_id]); ("environment", [environment_id])] in
  let filters :=
    match group_id with
    | ANone => filters
    | _ => dict_set String.eqb "issue" [group_id] filters
    end in
  let aggregations := [("uniq", "tags_value", "values_seen")] in
  mkQuery start end_ ["tags_key"] (Some []) filters (Some aggregations)
    limit (Some "-values_seen").

Definition __get_tag_keys (project_id group_id environment_id : atom)
  (limit : option (option Z)) : M (list instance) :=
  let limit := default (Some 1000) limit in
  '(start, end_) <- get_time_range None ;;
  result <- snuba_query
              (__get_tag_keys_query start end_ project_id group_id
                 environment_id limit) ;;
  let ctor :=
    match group_id with
    | ANone => construct TagKey
    | _ => partial GroupTagKey [("group_id", VAtom group_id)]
    end in
  items <- lift (items_of result) ;;
  lift (omap (fun '(key, values_seen) =>
                ctor [("key", VAtom key); ("values_seen", values_seen)])
          (filter (fun kv => truthy (snd kv)) items)).

Definition __get_tag_value_query (start end_ : Z)
  (project_id group_id environment_id : atom) (key : string) (value : atom)
  : Query :=
  let tag := tag_column key in
  let filters :=
    [("project_id", [project_id]); ("environment", [environment_id])] in
  let filters :=
    match group_id with
    | ANone => filters
    | _ => dict_set String.eqb "issue" [group_id] filters
    end in
  let conditions := [Simple (tag, "=", LAtom value)] in
  let aggregations :=
    [("count()", "", "times_seen");
     ("min", SEEN_COLUMN, "first_seen");
     ("max", SEEN_COLUMN, "last_seen")] in
  mkQuery start end_ [] (Some conditions) filters (Some aggregations)
    None None.

Definition __get_tag_value (project_id group_id environment_id : atom)
  (key : string) (value : atom) : M instance :=
  '(start, end_) <- get_time_range None ;;
  data <- snuba_query
            (__get_tag_value_query start end_ project_id group_id
               environment_id key value) ;;
  if negb (truthy data) then
    raise (match group_id with
           | ANone => TagValueNotFound
           | _ => GroupTagValueNotFound
           end)
  else
    data <- lift (py_update data
                    [(AStr "key", VStr key); (AStr "value", VAtom value)]) ;;
    match group_id with
    | ANone =>
        lift (obind (keywords [] data) (construct TagKey))
    | _ =>
        lift (obind (keywords [("group_id", VAtom group_id)] data)
                (construct GroupTagKey))
    end.

Definition __get_tag_values_query (start end_ : Z)
  (project_id group_id environment_id : atom) (key : string) : Query :=
  let tag := tag_column key in
  let filters :=
    [("project_id", [project_id]); ("environment", [environment_id])] in
  let filters :=
    match group_id with
    | ANone => filters
    | _ => dict_set String.eqb "issue" [group_id] filters
    end in
  let conditions := [Simple (tag, "!=", LAtom (AStr ""))] in
  let aggregations :=
    [("count()", "", "times_seen");
     ("min", SEEN_COLUMN, "first_seen");
     ("max", SEEN_COLUMN, "last_seen")] in
  mkQuery start end_ [tag] (Some conditions) filters (Some aggregations)
    None None.

Definition __get_tag_values (project_id group_id environment_id : atom)
  (key : string) : M (list instance) :=
  '(start, end_) <- get_time_range None ;;
  result <- snuba_query
              (__get_tag_values_query start end_ project_id group_id
                 environment_id key) ;;
  let ctor :=
    match group_id with
    | ANone => construct TagValue
    | _ => partial GroupTagValue [("group_id", VAtom group_id)]
    end in
  items <- lift (items_of result) ;;
  lift (omap (fun '(value, data) =>
                obind (keywords [("key", VStr key); ("value", VAtom value)]
                         data) ctor)
          items).

Definition get_tag_key (project_id environment_id : atom) (key : string)
  (status : option Status) : M instance :=
  let status := default VISIBLE status in
  if status_is status VISIBLE then
    __get_tag_key project_id ANone environment_id key
  else raise AssertionError.

Definition get_tag_keys (project_id environment_id : atom)
  (status : option Status) : M (list instance) :=
  let status := default VISIBLE status in
  if status_is status VISIBLE then
    __get_tag_keys project_id ANone environment_id None
  else raise AssertionError.

Definition get_tag_value (project_id environment_id : atom) (key : string)
  (value : atom) : M instance :=
  __get_tag_value project_id ANone environment_id key value.

Definition get_tag_values (project_id environment_id : atom)
  (key : string) : M (list instance) :=
  __get_tag_values project_id ANone environment_id key.

Definition get_group_tag_key (project_id group_id environment_id : atom)
  (key : string) : M instance :=
  __get_tag_key project_id group_id environment_id key.

Definition get_group_tag_keys (project_id group_id environment_id : atom)
  (limit : option (option Z)) : M (list instance) :=
  let limit := default None limit in
  __get_tag_keys project_id group_id environment_id (Some limit).

Definition get_group_tag_value (project_id group_id environment_id : atom)
  (key : string) (value : atom) : M instance :=
  __get_tag_value project_id group_id environment_id key value.

Definition get_group_tag_values (project_id group_id environment_id : atom)
  (key : string) : M (list instance) :=
  __get_tag_values project_id group_id environment_id key.

Definition get_group_list_tag_value_query (start end_ : Z)
  (project_id : atom) (group_ids : list atom) (environment_id : atom)
  (key : string) (value : atom) : Query :=
  let tag := tag_column key in
  let filters :=
    [("project_id", [project_id]); ("environment", [environment_id]);
     ("issue", group_ids)] in
  let conditions := [Simple (tag, "=", LAtom value)] in
  let aggregations :=
    [("count()", "", "times_seen");
     ("min", SEEN_COLUMN, "first_seen");
     ("max", SEEN_COLUMN, "last_seen")] in
  mkQuery start end_ ["issue"] (Some conditions) filters
    (Some aggregations) None None.

Definition get_group_list_tag_value (project_id : atom)
  (group_ids : list atom) (environment_id : atom) (key : string)
  (value : atom) : M (list (atom * instance)) :=
  '(start, end_) <- get_time_range None ;;
  result <- snuba_query
              (get_group_list_tag_value_query start end_ project_id
                 group_ids environment_id key value) ;;
  items <- lift (items_of result) ;;
  entries <- lift (omap (fun '(issue, data) =>
                           obind (obind (keywords
                                           [("group_id", VAtom issue);
                                            ("key", VStr key);
                                            ("value", VAtom value)] data)
                                    (construct GroupTagValue))
                             (fun r => Ret (issue, r)))
                     items) ;;
  ret (dict_update atom_eqb [] entries).

Definition get_group_tag_value_count_query (start end_ : Z)
  (project_id group_id environment_id : atom) (key : string) : Query :=
  let tag := tag_column key in
  let filters :=
    [("project_id", [project_id]); ("environment", [environment_id]);
     ("issue", [group_id])] in
  let conditions := [Simple (tag, "!=", LAtom (AStr ""))] in
  let aggregations := [("count()", "", "count")] in
  mkQuery start end_ [] (Some conditions) filters (Some aggregations)
    None None.

Definition get_group_tag_value_count
  (project_id group_id environment_id : atom) (key : string) : M pyval :=
  '(start, end_) <- get_time_range None ;;
  snuba_query
    (get_group_tag_value_count_query start end_ project_id group_id
       environment_id key).

Definition get_top_group_tag_values_query (start end_ : Z)
  (project_id group_id environment_id : atom) (key : string)
  (limit : option Z) : Query :=
  let tag := tag_column key in
  let filters :=
    [("project_id", [project_id]); ("environment", [environment_id]);
     ("issue", [group_id])] in
  let conditions := [Simple (tag, "!=", LAtom (AStr ""))] in
  let aggregations :=
    [("count()", "", "times_seen");
     ("min", SEEN_COLUMN, "first_seen");
     ("max", SEEN_COLUMN, "last_seen")] in
  mkQuery start end_ [tag] (Some conditions) filters (Some aggregations)
    limit (Some "-times_seen").

Definition get_top_group_tag_values
  (project_id group_id environment_id : atom) (key : string)
  (limit : option (option Z)) : M (list instance) :=
  let limit := default (Some 3) limit in
  '(start, end_) <- get_time_range None ;;
  result <- snuba_query
              (get_top_group_tag_values_query start end_ project_id
                 group_id environment_id key limit) ;;
  items <- lift (items_of result) ;;
  lift (omap (fun '(value, data) =>
                obind (keywords [("group_id", VAtom group_id);
                                 ("key", VStr key);
                                 ("value", VAtom value)] data)
                  (construct GroupTagValue))
          items).

Definition get_release_query (start end_ : Z) (project_id group_id : atom)
  (first : bool) : Query :=
  let filters := [("project_id", [project_id])] in
  let conditions := [Simple ("release", "IS NOT NULL", LAtom ANone)] in
  let filters :=
    match group_id with
    | ANone => filters
    | _ => dict_set String.eqb "issue" [group_id] filters
    end in
  let aggregations :=
    [((if first then "min" else "max"), SEEN_COLUMN, "seen")] in
  let orderby := if first then "seen" else "-seen" in
  mkQuery start end_ ["release"] (Some conditions) filters
    (Some aggregations) (Some 1) (Some orderby).

Definition get_release (project_id group_id : atom) (first : option bool)
  : M atom :=
  let first := default true first in
  '(start, end_) <- get_time_range None ;;
  result <- snuba_query
              (get_release_query start end_ project_id group_id first) ;;
  if negb (truthy result) then ret ANone
  else lift (obind (keys_of result) first_of).

Definition get_first_release (project_id group_id : atom) : M atom :=
  get_release project_id group_id (Some true).

Definition get_last_release (project_id group_id : atom) : M atom :=
  get_release project_id group_id (Some false).

(** The labelled record of one row, shared by the release and the user
    statistics: the three aggregates are read off the row in the order
    the dictionary literal lists them. *)
Definition labelled (label : string) (name : atom) (val : pyval)
  : outcome ObjectWrapper :=
  obind (getitem val "count") (fun times_seen =>
  obind (getitem val "first_seen") (fun first_seen =>
  obind (getitem val "last_seen") (fun last_seen =>
  Ret (ObjectWrapper_init
         [("times_seen", times_seen);
          ("first_seen", first_seen);
          ("last_seen", last_seen);
          ("key", VStr label);
          ("value", VAtom name)])))).

Definition get_release_tags_query (start end_ : Z) (project_ids : list atom)
  (environment_id : atom) (versions : list atom) : Query :=
  let filters :=
    [("project_id", project_ids); ("environment", [environment_id])] in
  let conditions := [Simple ("release", "IN", LList versions)] in
  let aggregations :=
    [("count()", "", "count");
     ("min", SEEN_COLUMN, "first_seen");
     ("max", SEEN_COLUMN, "last_seen")] in
  mkQuery start end_ ["release"] (Some conditions) filters
    (Some aggregations) None None.

Definition get_release_tags (project_ids : list atom)
  (environment_id : atom) (versions : list atom) : M (list ObjectWrapper) :=
  '(start, end_) <- get_time_range None ;;
  result <- snuba_query
              (get_release_tags_query start end_ project_ids environment_id
                 versions) ;;
  items <- lift (items_of result) ;;
  lift (omap (fun '(name, val) => labelled "release" name val) items).

Definition get_group_event_ids_query (start end_ : Z)
  (project_id environment_id : atom) (tags : list (string * atom)) : Query :=
  let filters :=
    [("environment", [environment_id]); ("project_id", [project_id])] in
  let or_conditions :=
    map (fun '(tag, val) => (tag_column tag, "=", LAtom val)) tags in
  let conditions := [OrGroup or_conditions] in
  mkQuery start end_ ["event_id"] (Some conditions) filters None None None.

Definition get_group_event_ids (project_id group_id environment_id : atom)
  (tags : list (string * atom)) : M (list atom) :=
  '(start, end_) <- get_time_range None ;;
  events <- snuba_query
              (get_group_event_ids_query start end_ project_id
                 environment_id tags) ;;
  lift (keys_of events).

Definition get_group_ids_for_users_query (start end_ : Z)
  (project_ids : list atom) (event_users : list EventUser)
  (limit : option Z) : Query :=
  let filters := [("project_id", project_ids)] in
  let or_conditions := or_conditions_of event_users in
  let conditions := [OrGroup or_conditions] in
  let aggregations := [("max", SEEN_COLUMN, "seen")] in
  mkQuery start end_ ["issue"] (Some conditions) filters
    (Some aggregations) limit (Some "-seen").

Definition get_group_ids_for_users (project_ids : list atom)
  (event_users : list EventUser) (limit : option (option Z))
  : M (list atom) :=
  let limit := default (Some 100) limit in
  '(start, end_) <- get_time_range None ;;
  result <- snuba_query
              (get_group_ids_for_users_query start end_ project_ids
                 event_users limit) ;;
  lift (keys_of result).

Definition get_group_tag_values_for_users_query (start end_ : Z)
  (event_users : list EventUser) (limit : option Z) : Query :=
  let filters := [("project_id", map eu_project_id event_users)] in
  let or_conditions := or_conditions_of event_users in
  let conditions := [OrGroup or_conditions] in
  let aggregations :=
    [("count()", "", "count");
     ("min", SEEN_COLUMN, "first_seen");
     ("max", SEEN_COLUMN, "last_seen")] in
  mkQuery start end_ ["user_id"] (Some conditions) filters
    (Some aggregations) limit (Some "-last_seen").

Definition get_group_tag_values_for_users (event_users : list EventUser)
  (limit : option (option Z)) : M (list ObjectWrapper) :=
  let limit := default (Some 100) limit in
  '(start, end_) <- get_time_range None ;;
  result <- snuba_query
              (get_group_tag_values_for_users_query start end_ event_users
                 limit) ;;
  items <- lift (items_of result) ;;
  lift (omap (fun '(name, val) => labelled "sentry:user" name val) items).

Definition get_groups_user_counts_query (start end_ : Z) (project_id : atom)
  (group_ids : list atom) (environment_id : atom) : Query :=
  let filters :=
    [("project_id", [project_id]); ("environment", [environment_id]);
     ("issue", group_ids)] in
  let aggregations := [("uniq", "user_id", "count")] in
  mkQuery start end_ ["issue"] None filters (Some aggregations) None None.

Definition get_groups_user_counts (project_id : atom)
  (group_ids : list atom) (environment_id : atom) : M defaultdict :=
  '(start, end_) <- get_time_range None ;;
  result <- snuba_query
              (get_groups_user_counts_query start end_ project_id group_ids
                 environment_id) ;;
  items <- lift (items_of result) ;;
  ret (defaultdict_int items).

Definition get_group_ids_for_search_filter (project_id environment_id : atom)
  (tags : list (string * atom)) (candidates : option (list atom))
  (limit : option (option Z)) : M (list atom) :=
  raise NotImplementedError.

(** *** The public interface as one dispatcher *)

Inductive api_call : Type :=
| Call_get_time_range (days : option Z)
| Call_get_tag_key (project_id environment_id : atom) (key : string)
    (status : option Status)
| Call_get_tag_keys (project_id environment_id : atom)
    (status : option Status)
| Call_get_tag_value (project_id environment_id : atom) (key : string)
    (value : atom)
| Call_get_tag_values (project_id environment_id : atom) (key : string)
| Call_get_group_tag_key (project_id group_id environment_id : atom)
    (key : string)
| Call_get_group_tag_keys (project_id group_id environment_id : atom)
    (limit : option (option Z))
| Call_get_group_tag_value (project_id group_id environment_id : atom)
    (key : string) (value : atom)
| Call_get_group_tag_values (project_id group_id environment_id : atom)
    (key : string)
| Call_get_group_list_tag_value (project_id : atom) (group_ids : list atom)
    (environment_id : atom) (key : string) (value : atom)
| Call_get_group_tag_value_count (project_id group_id environment_id : atom)
    (key : string)
| Call_get_top_group_tag_values (project_id group_id environment_id : atom)
    (key : string) (limit : option (option Z))
| Call_get_release (project_id group_id : atom) (first : option bool)
| Call_get_first_release (project_id group_id : atom)
| Call_get_last_release (project_id group_id : atom)
| Call_get_release_tags (project_ids : list atom) (environment_id : atom)
    (versions : list atom)
| Call_get_group_event_ids (project_id group_id environment_id : atom)
    (tags : list (string * atom))
| Call_get_group_ids_for_users (project_ids : list atom)
    (event_users : list EventUser) (limit : option (option Z))
| Call_get_group_tag_values_for_users (event_users : list EventUser)
    (limit : option (option Z))
| Call_get_groups_user_counts (project_id : atom) (group_ids : list atom)
    (environment_id : atom)
| Call_get_group_ids_for_search_filter (project_id environment_id : atom)
    (tags : list (string * atom)) (candidates : option (list atom))
    (limit : option (option Z)).

(** What a public method hands back. *)
Inductive answer : Type :=
| Range (r : Z * Z)
| Record_ (i : instance)
| Records (l : list instance)
| Mapping (m : list (atom * instance))
| Value (v : pyval)
| Scalar (a : atom)
| Keys (l : list atom)
| Wrappers (l : list ObjectWrapper)
| Counts (d : defaultdict).

Definition fmap {A B} (f : A -> B) (m : M A) : M B :=
  x <- m ;; ret (f x).

Definition perform (c : api_call) : M answer :=
  match c with
  | Call_get_time_range d => fmap Range (get_time_range d)
  | Call_get_tag_key p e k s => fmap Record_ (get_tag_key p e k s)
  | Call_get_tag_keys p e s => fmap Records (get_tag_keys p e s)
  | Call_get_tag_value p e k v => fmap Record_ (get_tag_value p e k v)
  | Call_get_tag_values p e k => fmap Records (get_tag_values p e k)
  | Call_get_group_tag_key p g e k =>
      fmap Record_ (get_group_tag_key p g e k)
  | Call_get_group_tag_keys p g e l =>
      fmap Records (get_group_tag_keys p g e l)
  | Call_get_group_tag_value p g e k v =>
      fmap Record_ (get_group_tag_value p g e k v)
  | Call_get_group_tag_values p g e k =>
      fmap Records (get_group_tag_values p g e k)
  | Call_get_group_list_tag_value p gs e k v =>
      fmap Mapping (get_group_list_tag_value p gs e k v)
  | Call_get_group_tag_value_count p g e k =>
      fmap Value (get_group_tag_value_count p g e k)
  | Call_get_top_group_tag_values p g e k l =>
      fmap Records (get_top_group_tag_values p g e k l)
  | Call_get_release p g f => fmap Scalar (get_release p g f)
  | Call_get_first_release p g => fmap Scalar (get_first_release p g)
  | Call_get_last_release p g => fmap Scalar (get_last_release p g)
  | Call_get_release_tags ps e vs =>
      fmap Wrappers (get_release_tags ps e vs)
  | Call_get_group_event_ids p g e ts =>
      fmap Keys (get_group_event_ids p g e ts)
  | Call_get_group_ids_for_users ps us l =>
      fmap Keys (get_group_ids_for_users ps us l)
  | Call_get_group_tag_values_for_users us l =>
      fmap Wrappers (get_group_tag_values_for_users us l)
  | Call_get_groups_user_counts p gs e =>
      fmap Counts (get_groups_user_counts p gs e)
  | Call_get_group_ids_for_search_filter p e ts cs l =>
      fmap Keys (get_group_ids_for_search_filter p e ts cs l)
  end.

(** ** Notions used in the statements *)

(** The world a call leaves behind when it issued [q]. *)
Definition after (w : World) (q : Query) : World :=
  mkWorld (clock w) (issued w ++ [q]).

(** The trailing 90-day window read off the clock of [w]. *)
Definition window_start (w : World) : Z := clock w - timedelta_days 90.

(** What one call may do to the world: the clock is only read, and at
    most one descriptor is logged, carrying the window of the clock. *)
Definition one_window_query (w w' : World) : Prop :=
  clock w' = clock w /\
  exists new : list Query,
    issued w' = (issued w ++ new)%list /\
    (List.length new <= 1)%nat /\
    Forall (fun q => q_start q = clock w - timedelta_days 90 /\
                     q_end q = clock w) new.

(** A computation that leaves the world alone. *)
Definition stateless {A} (m : M A) : Prop := forall w, snd (m w) = w.





(** The descriptors a call adds to the log. *)
Definition issued_by (c : api_call) (w : World) : list Query :=
  skipn (List.length (issued w)) (issued (snd (perform c w))).

(** The calls that reach [snuba.query]: all but the two helpers without
    a query and the key methods stopped by their assertion. *)
Definition issues_query (c : api_call) : bool :=
  match c with
  | Call_get_time_range _ => false
  | Call_get_tag_key _ _ _ status
  | Call_get_tag_keys _ _ status =>
      status_is (default VISIBLE status) VISIBLE
  | Call_get_group_ids_for_search_filter _ _ _ _ _ => false
  | _ => true
  end.

(** An engine that fails on every query. *)
Definition failing (msg : string) : Query -> reply := fun _ => Failure msg.

(** Sets of exceptions, by what can go wrong after the query. *)
Definition engine_failure (x : exn) : bool :=
  match x with
  | EngineError _ => true
  | _ => false
  end.

(** The answer is not a mapping. *)
Definition keys_errors (x : exn) : bool :=
  match x with
  | EngineError _ | AttributeError => true
  | _ => false
  end.

(** Moreover a row does not fit the record constructor. *)
Definition rows_errors (x : exn) : bool :=
  match x with
  | EngineError _ | AttributeError | TypeError => true
  | _ => false
  end.

(** Moreover a row lacks a column. *)
Definition labelled_errors (x : exn) : bool :=
  match x with
  | EngineError _ | AttributeError | TypeError | KeyError => true
  | _ => false
  end.

Definition is_None (a : atom) : bool :=
  match a with
  | ANone => true
  | _ => false
  end.

(** The exceptions each public method can end in.  Nothing is said of
    [get_time_range]: with a number of days of the caller its date
    arithmetic can leave the range of dates, which the integers of this
    development do not show. *)
Definition may_raise (c : api_call) (x : exn) : bool :=
  match c with
  | Call_get_time_range _ => true
  | Call_get_tag_key _ _ _ _ =>
      match x with
      | AssertionError | TagKeyNotFound | EngineError _ => true
      | _ => false
      end
  | Call_get_tag_keys _ _ _ =>
      match x with
      | AssertionError => true
      | _ => keys_errors x
      end
  | Call_get_tag_value _ _ _ _ =>
      match x with
      | TagValueNotFound => true
      | _ => rows_errors x
      end
  | Call_get_group_tag_key _ g _ _ =>
      match x with
      | TagKeyNotFound => is_None g
      | GroupTagKeyNotFound => negb (is_None g)
      | _ => engine_failure x
      end
  | Call_get_group_tag_value _ g _ _ _ =>
      match x with
      | TagValueNotFound => is_None g
      | GroupTagValueNotFound => negb (is_None g)
      | _ => rows_errors x
      end
  | Call_get_group_tag_keys _ _ _ _
  | Call_get_group_event_ids _ _ _ _
  | Call_get_group_ids_for_users _ _ _
  | Call_get_groups_user_counts _ _ _
  | Call_get_release _ _ _
  | Call_get_first_release _ _
  | Call_get_last_release _ _ => keys_errors x
  | Call_get_tag_values _ _ _
  | Call_get_group_tag_values _ _ _ _
  | Call_get_group_list_tag_value _ _ _ _ _
  | Call_get_top_group_tag_values _ _ _ _ _ => rows_errors x
  | Call_get_group_tag_value_count _ _ _ _ => engine_failure x
  | Call_get_release_tags _ _ _
  | Call_get_group_tag_values_for_users _ _ => labelled_errors x
  | Call_get_group_ids_for_search_filter _ _ _ _ _ =>
      match x with
      | NotImplementedError => true
      | _ => false
      end
  end.

(** [raises P o]: if [o] is an exception, it is one of [P]. *)
Definition raises {A} (P : exn -> bool) (o : outcome A) : Prop :=
  forall x, o = Raise x -> P x = true.

(** The same for a computation, in every world. *)
Definition raisesM {A} (P : exn -> bool) (m : M A) : Prop :=
  forall w, raises P (fst (m w)).

(** What a call does to the log and with a failing engine. *)
Definition call_shape (c : api_call) (w : World) : Prop :=
  if issues_query c then
    exists q,
      snd (perform c w) = after w q /\
      (forall msg, engine q = Failure msg ->
                   fst (perform c w) = Raise (EngineError msg))
  else snd (perform c w) = w.


(** The row of a statistics query: the three aggregates under the
    aliases count, first_seen and last_seen. *)
Definition count_row (count first_seen last_seen : pyval) : pyval :=
  VDict [(AStr "count", count);
         (AStr "first_seen", first_seen);
         (AStr "last_seen", last_seen)].

(** The labelled record made of such a row. *)
Definition labelled_record (label : string)
  (row : atom * (pyval * pyval * pyval)) : ObjectWrapper :=
  mkObjectWrapper
    [("times_seen", fst (fst (snd row)));
     ("first_seen", snd (fst (snd row)));
     ("last_seen", snd (snd row));
     ("key", VStr label);
     ("value", VAtom (fst row));
     ("id", VInt 0)].

Definition answer_of_count_rows (rows : list (atom * (pyval * pyval * pyval)))
  : pyval :=
  VDict (map (fun row => (fst row,
                          count_row (fst (fst (snd row)))
                            (snd (fst (snd row))) (snd (snd row)))) rows).

(** The outcome of a method that hands back the keys of the answer. *)
Definition keys_outcome (r : reply) : outcome (list atom) :=
  match r with
  | Answer (VDict rows) => Ret (map fst rows)
  | Answer (VAtom _) => Raise AttributeError
  | Failure msg => Raise (EngineError msg)
  end.

(** * Properties *)

(** ** Running a method *)

Lemma get_time_range_run (w : World) :
  get_time_range None w = (Ret (window_start w, clock w), w).
Proof. reflexivity. Qed.

(** A method that reads the window, issues the descriptor [Q] and maps
    the answer with [K]. *)
Lemma query_then_run {B} (Q : Z -> Z -> Query) (K : pyval -> M B)
  (w : World) :
  ('(start, end_) <- get_time_range None ;;
   result <- snuba_query (Q start end_) ;; K result) w =
  match engine (Q (window_start w) (clock w)) with
  | Answer v => K v (after w (Q (window_start w) (clock w)))
  | Failure msg =>
      (Raise (EngineError msg), after w (Q (window_start w) (clock w)))
  end.
Proof.
  unfold bind, get_time_range, timezone_now, ret, snuba_query, default.
  cbn. destruct (engine _); reflexivity.
Qed.

(** ** The unsupported operation *)

(** C9: [get_group_ids_for_search_filter] raises the not-implemented
    condition at once, whatever its arguments, and leaves the world as
    it found it: the query log has no new entry. *)
Theorem C9_search_filter_not_implemented :
  forall (project_id environment_id : atom) (tags : list (string * atom))
         (candidates : option (list atom)) (limit : option (option Z))
         (w : World),
    get_group_ids_for_search_filter project_id environment_id tags
      candidates limit w = (Raise NotImplementedError, w).
Proof. reflexivity. Qed.

(** ** The status assertion *)

Lemma status_is_true (a b : Status) : status_is a b = true <-> a = b.
Proof.
  unfold status_is. destruct (Status_eq_dec a b); split; congruence.
Qed.

Lemma status_is_false (a b : Status) : a <> b -> status_is a b = false.
Proof.
  unfold status_is. destruct (Status_eq_dec a b); congruence.
Qed.

(** C10: a status other than [VISIBLE] fails the assertion of
    [get_tag_key] and of [get_tag_keys] before any query: the outcome
    is the assertion error and the world is unchanged.  Hence a call
    that returns was made with [VISIBLE] (given or by default). *)
Theorem C10_status_must_be_visible :
  forall (project_id environment_id : atom) (key : string)
         (status : Status) (w : World),
    status <> VISIBLE ->
    get_tag_key project_id environment_id key (Some status) w
      = (Raise AssertionError, w) /\
    get_tag_keys project_id environment_id (Some status) w
      = (Raise AssertionError, w) /\
    (forall (given : option Status) (r : instance),
        fst (get_tag_key project_id environment_id key given w) = Ret r ->
        default VISIBLE given = VISIBLE) /\
    (forall (given : option Status) (l : list instance),
        fst (get_tag_keys project_id environment_id given w) = Ret l ->
        default VISIBLE given = VISIBLE).
Proof.
  intros p e key status w Hs.
  unfold get_tag_key, get_tag_keys.
  repeat split.
  - cbn. rewrite (status_is_false _ _ Hs). reflexivity.
  - cbn. rewrite (status_is_false _ _ Hs). reflexivity.
  - intros given r. cbv zeta.
    destruct (status_is (default VISIBLE given) VISIBLE) eqn:E.
    + intros _. now apply status_is_true.
    + cbn. discriminate.
  - intros given l. cbv zeta.
    destruct (status_is (default VISIBLE given) VISIBLE) eqn:E.
    + intros _. now apply status_is_true.
    + cbn. discriminate.
Qed.

(** ** The time window *)


Lemma one_window_query_refl (w : World) : one_window_query w w.
Proof.
  split; [reflexivity|]. exists []. rewrite app_nil_r.
  split; [reflexivity|]. split; [apply le_S, le_n | constructor].
Qed.

Lemma one_window_query_after (w : World) (q : Query) :
  q_start q = window_start w -> q_end q = clock w ->
  one_window_query w (after w q).
Proof.
  intros Hs He. split; [reflexivity|]. exists [q].
  split; [reflexivity|]. split; [apply le_n|].
  constructor; [split; assumption | constructor].
Qed.


Lemma stateless_lift {A} (o : outcome A) : stateless (lift o).
Proof. intros w. reflexivity. Qed.

Lemma stateless_ret {A} (a : A) : stateless (ret a).
Proof. intros w. reflexivity. Qed.

Lemma stateless_raise {A} (e : exn) : stateless (@raise A e).
Proof. intros w. reflexivity. Qed.

Lemma stateless_bind {A B} (m : M A) (f : A -> M B) :
  stateless m -> (forall a, stateless (f a)) -> stateless (bind m f).
Proof.
  intros Hm Hf w. unfold bind. specialize (Hm w).
  destruct (m w) as [[a|e] w1]; cbn in *; subst; auto. apply Hf.
Qed.

Lemma windowed_query_then {B} (Q : Z -> Z -> Query) (K : pyval -> M B)
  (w : World) :
  (forall s e, q_start (Q s e) = s /\ q_end (Q s e) = e) ->
  (forall v, stateless (K v)) ->
  one_window_query w
    (snd (('(start, end_) <- get_time_range None ;;
           result <- snuba_query (Q start end_) ;; K result) w)).
Proof.
  intros HQ HK. rewrite query_then_run.
  destruct (HQ (window_start w) (clock w)) as [Hs He].
  destruct (engine _); [rewrite HK|]; now apply one_window_query_after.
Qed.

Lemma fmap_snd {A B} (f : A -> B) (m : M A) (w : World) :
  snd (fmap f m w) = snd (m w).
Proof.
  unfold fmap, bind, ret. destruct (m w) as [[a|e] w1]; reflexivity.
Qed.

Ltac stateless_tac :=
  repeat first
    [ apply stateless_lift | apply stateless_ret | apply stateless_raise
    | apply stateless_bind; [|intros ?]
    | match goal with
      | |- stateless (if ?b then _ else _) => destruct b
      | |- stateless (match ?x with _ => _ end) => destruct x
      end ].

Ltac windowed :=
  apply windowed_query_then;
  [ intros ? ?; split; reflexivity | intros ?; stateless_tac ].

(** C8: whichever public method is called, in whatever world, the clock
    is only read and every descriptor the call issues spans the 90 days
    that end at the clock reading of that very call.  No method takes a
    window from its caller ([api_call] lists all their arguments) and
    nothing but the clock of the call decides the window. *)
Theorem C8_trailing_ninety_day_window :
  forall (c : api_call) (w : World),
    one_window_query w (snd (perform c w)).
Proof.
  intros c w. destruct c; cbn [perform]; rewrite fmap_snd;
    try (unfold get_tag_key, get_tag_keys, get_tag_value, get_tag_values,
           get_group_tag_key, get_group_tag_keys, get_group_tag_value,
           get_group_tag_values, get_first_release, get_last_release;
         cbv zeta).
  - apply one_window_query_refl.
  - destruct (status_is _ _); [|apply one_window_query_refl].
    unfold __get_tag_key. windowed.
  - destruct (status_is _ _); [|apply one_window_query_refl].
    unfold __get_tag_keys. windowed.
  - unfold __get_tag_value. windowed.
  - unfold __get_tag_values. windowed.
  - unfold __get_tag_key. windowed.
  - unfold __get_tag_keys. windowed.
  - unfold __get_tag_value. windowed.
  - unfold __get_tag_values. windowed.
  - unfold get_group_list_tag_value. windowed.
  - unfold get_group_tag_value_count, bind, get_time_range, timezone_now,
      ret, snuba_query, default. cbn.
    now apply one_window_query_after.
  - unfold get_top_group_tag_values. windowed.
  - unfold get_release. windowed.
  - unfold get_release. windowed.
  - unfold get_release. windowed.
  - unfold get_release_tags. windowed.
  - unfold get_group_event_ids. windowed.
  - unfold get_group_ids_for_users. windowed.
  - unfold get_group_tag_values_for_users. windowed.
  - unfold get_groups_user_counts. windowed.
  - apply one_window_query_refl.
Qed.

(** ** Release lookup *)

(** C7: [get_release] asks for the rows with a release, grouped by
    release, one row at most, under min(timestamp) in ascending order
    for the first release and max(timestamp) in descending order for
    the last; it hands back the release of the first row, or None when
    the answer is empty, and raises nothing of its own then.
    [get_first_release] and [get_last_release] are the two directions. *)
Theorem C7_get_release :
  forall (project_id group_id : atom) (first : option bool) (w : World),
    let direction := default true first in
    let q := get_release_query (window_start w) (clock w) project_id
               group_id direction in
    q_conditions q = Some [Simple ("release", "IS NOT NULL", LAtom ANone)] /\
    q_groupby q = ["release"] /\
    q_limit q = Some 1 /\
    q_aggregations q =
      Some [((if direction then "min" else "max"), "timestamp", "seen")] /\
    q_orderby q = Some (if direction then "seen" else "-seen") /\
    q_filters q =
      match group_id with
      | ANone => [("project_id", [project_id])]
      | _ => [("project_id", [project_id]); ("issue", [group_id])]
      end /\
    snd (get_release project_id group_id first w) = after w q /\
    fst (get_release project_id group_id first w) =
      match engine q with
      | Answer (VDict ((release, _) :: _)) => Ret release
      | Answer (VDict []) => Ret ANone
      | Answer (VAtom a) =>
          if truthy (VAtom a) then Raise AttributeError else Ret ANone
      | Failure msg => Raise (EngineError msg)
      end /\
    get_first_release project_id group_id w
      = get_release project_id group_id (Some true) w /\
    get_last_release project_id group_id w
      = get_release project_id group_id (Some false) w.
Proof.
  intros p g first w direction q.
  assert (Hrun : get_release p g first w =
                 (match engine q with
                  | Answer (VDict ((release, _) :: _)) => Ret release
                  | Answer (VDict []) => Ret ANone
                  | Answer (VAtom a) =>
                      if truthy (VAtom a) then Raise AttributeError
                      else Ret ANone
                  | Failure msg => Raise (EngineError msg)
                  end, after w q)).
  { unfold get_release. cbv zeta. rewrite query_then_run.
    fold direction. fold q.
    destruct (engine q) as [[a|[|[k v] items]]|msg]; try reflexivity.
    destruct (truthy (VAtom a)); reflexivity. }
  do 5 (split; [reflexivity|]).
  split; [destruct g; reflexivity|].
  rewrite Hrun. repeat split.
Qed.

(** ** What a mapper can raise *)

Lemma omap_raise {A B} (f : A -> outcome B) (xs : list A) (e : exn) :
  omap f xs = Raise e -> exists x, In x xs /\ f x = Raise e.
Proof.
  induction xs as [|x xs IH]; cbn; [discriminate|].
  destruct (f x) as [y|e'] eqn:Ef; cbn.
  - destruct (omap f xs) as [ys|e'']; cbn; [discriminate|].
    intros H. destruct (IH H) as (x' & Hin & Hx'). eauto.
  - intros H. inversion H; subst. eauto.
Qed.

Lemma construct_raise (c : cls) (kw : list (string * pyval)) (e : exn) :
  construct c kw = Raise e -> e = TypeError.
Proof.
  unfold construct. destruct (_ && _); [discriminate|]. congruence.
Qed.


Lemma star_keywords_raise (star : list (atom * pyval)) :
  forall (explicit : list (string * pyval)) (e : exn),
    star_keywords explicit star = Raise e -> e = TypeError.
Proof.
  induction star as [|[k v] star IH]; intros explicit e; cbn.
  - discriminate.
  - destruct k; try congruence.
    destruct (dict_mem _ _ _); [congruence|]. apply IH.
Qed.

Lemma keywords_raise (explicit : list (string * pyval)) (star : pyval)
  (e : exn) :
  keywords explicit star = Raise e -> e = TypeError.
Proof.
  destruct star; cbn; [congruence|]. apply star_keywords_raise.
Qed.




(** ** Singular lookups against listings *)


(** ** Dictionaries *)

Lemma atom_eqb_eq (a b : atom) : atom_eqb a b = true <-> a = b.
Proof.
  destruct a, b; cbn; split; intros H; try congruence; try discriminate.
  - apply Z.eqb_eq in H. congruence.
  - inversion H. apply Z.eqb_refl.
  - apply String.eqb_eq in H. congruence.
  - inversion H. apply String.eqb_refl.
Qed.

Lemma atom_eqb_refl (a : atom) : atom_eqb a a = true.
Proof. now apply atom_eqb_eq. Qed.

Section DictFacts.
Context {V : Type}.
Implicit Types (d e : list (atom * V)) (k : atom).

Lemma dict_mem_keys k d :
  dict_mem atom_eqb k d = existsb (atom_eqb k) (dict_keys d).
Proof.
  unfold dict_mem. induction d as [|[k' v] d IH]; cbn; [reflexivity|].
  destruct (atom_eqb k k'); [reflexivity|exact IH].
Qed.

Lemma dict_get_In k v d :
  dict_get atom_eqb k d = Some v -> In (k, v) d.
Proof.
  induction d as [|[k' v'] d IH]; cbn; [discriminate|].
  destruct (atom_eqb k k') eqn:E.
  - apply atom_eqb_eq in E. intros H. left. congruence.
  - intros H. right. auto.
Qed.

Lemma dict_set_In k v d k0 v0 :
  In (k, v) (dict_set atom_eqb k0 v0 d) ->
  In (k, v) d \/ (k = k0 /\ v = v0).
Proof.
  induction d as [|[k' v'] d IH]; cbn.
  - intros [H|[]]. right. split; congruence.
  - destruct (atom_eqb k0 k') eqn:E; cbn.
    + apply atom_eqb_eq in E. intros [H|H]; [|auto].
      right. split; congruence.
    + intros [H|H]; [auto|]. destruct (IH H); auto.
Qed.

Lemma dict_set_keys_mem k k0 v0 d :
  dict_mem atom_eqb k (dict_set atom_eqb k0 v0 d)
  = atom_eqb k k0 || dict_mem atom_eqb k d.
Proof.
  unfold dict_mem. induction d as [|[k' v'] d IH]; cbn.
  - destruct (atom_eqb k k0); reflexivity.
  - destruct (atom_eqb k0 k') eqn:E0; cbn.
    + apply atom_eqb_eq in E0. subst k'.
      destruct (atom_eqb k k0); reflexivity.
    + destruct (atom_eqb k k') eqn:E1.
      * now rewrite orb_true_r.
      * exact IH.
Qed.

Lemma dict_update_In e : forall d k v,
  In (k, v) (dict_update atom_eqb d e) -> In (k, v) d \/ In (k, v) e.
Proof.
  unfold dict_update.
  induction e as [|[k0 v0] e IH]; intros d k v; cbn; [auto|].
  intros H. apply IH in H. destruct H as [H|H]; [|auto].
  apply dict_set_In in H. destruct H as [H|[-> ->]]; auto.
Qed.

Lemma dict_update_mem e : forall d k,
  dict_mem atom_eqb k (dict_update atom_eqb d e)
  = dict_mem atom_eqb k d || dict_mem atom_eqb k e.
Proof.
  unfold dict_update.
  induction e as [|[k0 v0] e IH]; intros d k; cbn.
  - now rewrite orb_false_r.
  - rewrite IH, dict_set_keys_mem. unfold dict_mem at 4. cbn.
    destruct (atom_eqb k k0); cbn.
    + now rewrite orb_true_r.
    + reflexivity.
Qed.

Lemma dict_mem_false k d :
  dict_mem atom_eqb k d = false <-> dict_get atom_eqb k d = None.
Proof.
  unfold dict_mem. destruct (dict_get atom_eqb k d); split; congruence.
Qed.
End DictFacts.

(** ** Zero-filled user counts *)

(** C4: asked for the user counts of a set of issues, the backend hands
    back a dictionary with a default: its keys are the issues of the
    engine's rows and no other, so a requested issue without a row is
    not in it.  Looking up any issue, requested or not, yields the count
    of an engine row of that issue, as the engine gave it, and 0 when
    the engine has no row for it; only that lookup makes the issue a
    key.  The counts looked up are non-negative integers when the
    engine's are. *)
Theorem C4_user_counts_default_on_lookup :
  forall (project_id : atom) (group_ids : list atom) (environment_id : atom)
         (rows : list (atom * pyval)) (w : World),
    engine (get_groups_user_counts_query (window_start w) (clock w)
              project_id group_ids environment_id) = Answer (VDict rows) ->
    exists counts : defaultdict,
      fst (get_groups_user_counts project_id group_ids environment_id w)
        = Ret counts /\
      forall issue : atom,
        dd_contains counts issue = dict_mem atom_eqb issue rows /\
        (dict_get atom_eqb issue rows = None ->
         fst (dd_getitem counts issue) = VInt 0 /\
         dd_contains counts issue = false /\
         dd_contains (snd (dd_getitem counts issue)) issue = true) /\
        (dict_get atom_eqb issue rows <> None ->
         In (issue, fst (dd_getitem counts issue)) rows /\
         snd (dd_getitem counts issue) = counts) /\
        (Forall (fun row => exists n, snd row = VInt n /\ 0 <= n) rows ->
         exists n, fst (dd_getitem counts issue) = VInt n /\ 0 <= n).
Proof.
  intros p gids e rows w Hq.
  exists (defaultdict_int rows). split.
  { unfold get_groups_user_counts. rewrite query_then_run, Hq. reflexivity. }
  intros issue.
  assert (Hmem : dd_contains (defaultdict_int rows) issue
                 = dict_mem atom_eqb issue rows).
  { unfold dd_contains, defaultdict_int. cbn [dd_items].
    rewrite dict_update_mem. reflexivity. }
  split; [exact Hmem|].
  unfold dd_getitem.
  destruct (dict_get atom_eqb issue (dd_items (defaultdict_int rows)))
    as [v|] eqn:E; cbn [fst snd].
  - assert (Hin : In (issue, v) rows).
    { unfold defaultdict_int in E. cbn [dd_items] in E.
      apply dict_get_In, dict_update_In in E. destruct E as [[]|E]; auto. }
    assert (Hsome : dict_mem atom_eqb issue rows = true).
    { rewrite <- Hmem. unfold dd_contains, dict_mem. now rewrite E. }
    split; [|split].
    + intros Hnone. apply dict_mem_false in Hnone. congruence.
    + intros _. split; [exact Hin|reflexivity].
    + intros Hrows. rewrite Forall_forall in Hrows. apply (Hrows _ Hin).
  - assert (Hnone : dict_mem atom_eqb issue rows = false).
    { rewrite <- Hmem. unfold dd_contains, dict_mem. now rewrite E. }
    split; [|split].
    + intros _. split; [reflexivity|]. split; [now rewrite Hmem|].
      unfold dd_contains. cbn [dd_items].
      rewrite dict_set_keys_mem, atom_eqb_refl. reflexivity.
    + intros Hsome. exfalso. apply Hsome. now apply dict_mem_false.
    + intros _. exists 0. split; [reflexivity|lia].
Qed.

(** ** Records built from engine rows *)

Lemma star_keywords_prefix (star : list (atom * pyval)) :
  forall (explicit kw : list (string * pyval)),
    star_keywords explicit star = Ret kw ->
    exists rest, kw = (explicit ++ rest)%list.
Proof.
  induction star as [|[k v] star IH]; intros explicit kw; cbn.
  - intros H. inversion H. exists []. now rewrite app_nil_r.
  - destruct k; try discriminate.
    destruct (dict_mem _ _ _); [discriminate|].
    intros H. apply IH in H. destruct H as [rest ->].
    exists ((s, v) :: rest). now rewrite <- app_assoc.
Qed.

(** Rows of the three aggregates always make a record. *)
Lemma group_record_of_stats_row (g : atom) (key : string) (value : atom)
  (n : Z) (f l : pyval) :
  obind (keywords [("group_id", VAtom g); ("key", VStr key);
                   ("value", VAtom value)] (stats_row n f l))
    (construct GroupTagValue)
  = Ret (mkInstance GroupTagValue
           [("group_id", VAtom g); ("key", VStr key);
            ("value", VAtom value); ("times_seen", VInt n);
            ("first_seen", f); ("last_seen", l)]).
Proof. reflexivity. Qed.

Lemma omap_total {A B} (f : A -> outcome B) (xs : list A) :
  Forall (fun x => exists y, f x = Ret y) xs ->
  exists ys, omap f xs = Ret ys.
Proof.
  induction 1 as [|x xs [y Hy] _ [ys IH]]; cbn.
  - eauto.
  - rewrite Hy, IH. cbn. eauto.
Qed.

Lemma omap_ret {A B} (f : A -> outcome B) (xs : list A) :
  forall ys, omap f xs = Ret ys -> Forall2 (fun x y => f x = Ret y) xs ys.
Proof.
  induction xs as [|x xs IH]; cbn; intros ys H.
  - inversion H. constructor.
  - destruct (f x) as [y|] eqn:Ey; cbn in H; [|discriminate].
    destruct (omap f xs) as [ys'|]; cbn in H; [|discriminate].
    inversion H; subst. constructor; auto.
Qed.

Lemma obind_tagged {A K} (o : outcome A) (k k' : K) (r : A) :
  obind o (fun x => Ret (k, x)) = Ret (k', r) -> k' = k /\ o = Ret r.
Proof.
  destruct o; cbn; [|discriminate]. intros H. inversion H. auto.
Qed.

(** ** One tag value across many issues *)

(** C6: [get_group_list_tag_value] hands back a dictionary keyed by
    issue id: every record in it is a group tag value whose group_id is
    the key it is stored under, and an issue is a key exactly when the
    engine has a row for it, so a requested issue without a row is
    absent.  The engine's rows carry the three aggregates. *)
Theorem C6_group_list_tag_value_mapping :
  forall (project_id : atom) (group_ids : list atom) (environment_id : atom)
         (key : string) (value : atom) (rows : list (atom * pyval))
         (w : World),
    engine (get_group_list_tag_value_query (window_start w) (clock w)
              project_id group_ids environment_id key value)
      = Answer (VDict rows) ->
    Forall (fun row => exists n f l, snd row = stats_row n f l) rows ->
    exists mapping : list (atom * instance),
      fst (get_group_list_tag_value project_id group_ids environment_id
             key value w) = Ret mapping /\
      (forall issue r,
          In (issue, r) mapping ->
          class_of r = GroupTagValue /\
          getattr r "group_id" = Some (VAtom issue) /\
          getattr r "key" = Some (VStr key) /\
          getattr r "value" = Some (VAtom value)) /\
      (forall issue,
          dict_mem atom_eqb issue mapping = dict_mem atom_eqb issue rows) /\
      (forall issue,
          In issue group_ids ->
          dict_get atom_eqb issue rows = None ->
          dict_get atom_eqb issue mapping = None).
Proof.
  intros p gids e key value rows w Hq Hrows.
  set (build := fun '(issue, data) =>
                  obind (obind (keywords [("group_id", VAtom issue);
                                          ("key", VStr key);
                                          ("value", VAtom value)] data)
                           (construct GroupTagValue))
                    (fun r => Ret (issue, r))).
  assert (Hrun : forall entries,
             omap build rows = Ret entries ->
             fst (get_group_list_tag_value p gids e key value w)
             = Ret (dict_update atom_eqb [] entries)).
  { intros entries He. unfold get_group_list_tag_value.
    rewrite query_then_run, Hq. unfold bind, lift, ret. cbn.
    fold build. rewrite He. reflexivity. }
  destruct (omap_total build rows) as [entries He].
  { eapply Forall_impl; [|exact Hrows]. intros [issue data] (n & f & l & Hd).
    cbn in Hd. subst data. cbn. eauto. }
  exists (dict_update atom_eqb [] entries).
  split; [now apply Hrun|].
  apply omap_ret in He.
  assert (Hkeys : dict_keys entries = dict_keys rows).
  { clear -He. induction He as [|[k d] [k' r] rows' entries' H _ IH]; cbn;
      [reflexivity|].
    f_equal; [|exact IH]. unfold build in H.
    apply obind_tagged in H. now destruct H. }
  assert (Hmem : forall issue,
             dict_mem atom_eqb issue (dict_update atom_eqb [] entries)
             = dict_mem atom_eqb issue rows).
  { intros issue. rewrite dict_update_mem. cbn.
    now rewrite !dict_mem_keys, Hkeys. }
  split; [|split].
  - intros issue r Hin. apply dict_update_In in Hin.
    destruct Hin as [[]|Hin].
    assert (Hb : exists data, In (issue, data) rows /\
                              build (issue, data) = Ret (issue, r)).
    { clear -He Hin. induction He as [|[k d] y rows' entries' H _ IH].
      - destruct Hin.
      - destruct Hin as [->|Hin].
        + assert (issue = k)
            by (unfold build in H; apply obind_tagged in H; now destruct H).
          subst k. exists d. split; [now left|exact H].
        + destruct (IH Hin) as (data & Hd & Hb). exists data.
          split; [now right|exact Hb]. }
    destruct Hb as (data & Hd & Hb).
    rewrite Forall_forall in Hrows. destruct (Hrows _ Hd) as (n & f & l & E).
    cbn in E. subst data. unfold build in Hb.
    rewrite group_record_of_stats_row in Hb. cbn in Hb.
    inversion Hb; subst. repeat split.
  - exact Hmem.
  - intros issue _ Hnone. apply dict_mem_false. rewrite Hmem.
    now apply dict_mem_false.
Qed.

(** ** Orderings *)





(** ** The OR-group of the user methods *)

Lemma or_conditions_of_In (event_users : list EventUser) (c : clause) :
  In c (or_conditions_of event_users) <->
  exists column field,
    In (column, field)
      [("user_id", ident); ("email", email); ("username", username);
       ("ip_address", ip_address)] /\
    c = (column, "IN", LList (identifiers field event_users)) /\
    identifiers field event_users <> [].
Proof.
  unfold or_conditions_of. rewrite filter_In. split.
  - intros [Hin Hne].
    assert (Hc : forall column ids,
               c = (column, "IN", LList ids) -> ids <> []).
    { intros column ids -> ->. discriminate. }
    cbn in Hin.
    destruct Hin as [H|[H|[H|[H|[]]]]]; symmetry in H;
      eexists _, _; (split; [|split; [exact H|exact (Hc _ _ H)]]);
      cbn; auto 6.
  - intros (column & field & Hin & -> & Hne). split.
    + cbn in Hin. cbn.
      destruct Hin as [H|[H|[H|[H|[]]]]]; inversion H; subst; auto 6.
    + destruct (identifiers field event_users); [congruence|reflexivity].
Qed.

(** C2: both user methods issue one query whose only condition is the
    OR-group of the identity clauses.  The group has the [IN] clause of
    an identity attribute exactly when that attribute has a value to
    look for, and nothing else.  When no attribute has one, the query is
    issued all the same and its only condition is a group without any
    clause: on every row it is worth what the engine makes of an empty
    group, so it holds on every row for an engine that drops such a
    group.  The spec wants no query, or a condition false on every row. *)
Theorem C2_identity_or_group :
  forall (project_ids : list atom) (event_users : list EventUser)
         (limit : option (option Z)) (Row : Type)
         (clause_holds : Row -> clause -> bool) (w : World),
    let ors := or_conditions_of event_users in
    let q1 := get_group_ids_for_users_query (window_start w) (clock w)
                project_ids event_users (default (Some 100) limit) in
    let q2 := get_group_tag_values_for_users_query (window_start w)
                (clock w) event_users (default (Some 100) limit) in
    snd (get_group_ids_for_users project_ids event_users limit w)
      = after w q1 /\
    snd (get_group_tag_values_for_users event_users limit w)
      = after w q2 /\
    q_conditions q1 = Some [OrGroup ors] /\
    q_conditions q2 = Some [OrGroup ors] /\
    (forall column field,
        In (column, field)
          [("user_id", ident); ("email", email); ("username", username);
           ("ip_address", ip_address)] ->
        (In (column, "IN", LList (identifiers field event_users)) ors <->
         identifiers field event_users <> [])) /\
    (forall c,
        In c ors ->
        exists column field,
          In (column, field)
            [("user_id", ident); ("email", email); ("username", username);
             ("ip_address", ip_address)] /\
          c = (column, "IN", LList (identifiers field event_users)) /\
          identifiers field event_users <> []) /\
    ((forall field,
         In field [ident; email; username; ip_address] ->
         identifiers field event_users = []) ->
     q_conditions q1 = Some [OrGroup []] /\
     q_conditions q2 = Some [OrGroup []] /\
     forall (empty_group : bool) (r : Row),
       conditions_hold Row clause_holds empty_group r (q_conditions q1)
         = empty_group /\
       conditions_hold Row clause_holds empty_group r (q_conditions q2)
         = empty_group).
Proof.
  intros pids eus limit Row holds w ors q1 q2.
  split; [|split; [|split; [|split; [|split; [|split]]]]].
  - unfold get_group_ids_for_users. cbv zeta. rewrite query_then_run.
    fold q1. destruct (engine q1) as [v|msg]; [|reflexivity].
    unfold lift. reflexivity.
  - unfold get_group_tag_values_for_users. cbv zeta.
    rewrite query_then_run. fold q2.
    destruct (engine q2) as [v|msg]; [|reflexivity].
    unfold bind, lift. destruct (items_of v); reflexivity.
  - reflexivity.
  - reflexivity.
  - intros column field Hin. unfold ors. rewrite or_conditions_of_In. split.
    + intros (column' & field' & _ & Heq & Hne). congruence.
    + intros Hne. exists column, field. auto.
  - intros c Hc. now apply or_conditions_of_In.
  - intros Hall.
    assert (Hors : ors = []).
    { unfold ors, or_conditions_of.
      rewrite (Hall ident), (Hall email), (Hall username),
        (Hall ip_address); cbn; auto 6. }
    cbn [q_conditions q1 q2 get_group_ids_for_users_query
           get_group_tag_values_for_users_query].
    fold ors. rewrite Hors. split; [reflexivity|]. split; [reflexivity|].
    intros empty_group r. cbn. rewrite andb_true_r. split; reflexivity.
Qed.

(** ** The record of a value lookup *)

Lemma star_keywords_keeps (star : list (atom * pyval)) :
  forall (explicit kw : list (string * pyval)) (k : string),
    star_keywords explicit star = Ret kw ->
    dict_mem atom_eqb (AStr k) star = true ->
    exists v, In (k, v) kw.
Proof.
  induction star as [|[k0 v0] star IH]; intros explicit kw k; cbn.
  - discriminate.
  - destruct k0 as [|n|s]; try discriminate.
    destruct (dict_mem String.eqb s explicit); [discriminate|].
    intros Hs. unfold dict_mem. cbn.
    destruct (String.eqb k s) eqn:E.
    + intros _. apply String.eqb_eq in E. subst s.
      apply star_keywords_prefix in Hs. destruct Hs as [rest ->].
      exists v0. apply in_or_app. left. apply in_or_app. right. now left.
    + intros Hm. eapply IH; eauto.
Qed.

Lemma construct_known_keywords (c : cls) (kw : list (string * pyval))
  (r : instance) (k : string) (v : pyval) :
  construct c kw = Ret r -> In (k, v) kw -> In k (fields c).
Proof.
  unfold construct.
  destruct (forallb _ kw) eqn:E; [|discriminate]. intros _ Hin.
  rewrite forallb_forall in E. specialize (E _ Hin). cbn in E.
  apply existsb_exists in E. destruct E as (f & Hf & E).
  apply String.eqb_eq in E. now subst.
Qed.

(** A key record has no attribute for a tag value, so the constructor
    call that ends a value lookup cannot succeed: whatever the engine
    answers, the lookup hands back no record at all. *)
Lemma value_lookup_never_returns (p g e : atom) (key : string)
  (value : atom) (w : World) (r : instance) :
  fst (__get_tag_value p g e key value w) <> Ret r.
Proof.
  unfold __get_tag_value. rewrite query_then_run.
  destruct (engine _) as [data|msg]; [|discriminate].
  destruct (negb (truthy data)); [discriminate|].
  unfold bind, lift.
  destruct data as [a|items]; cbn [py_update fst]; [discriminate|].
  set (items' := dict_update atom_eqb items _).
  assert (Hm : dict_mem atom_eqb (AStr "value") items' = true).
  { unfold items'. rewrite dict_update_mem. apply orb_true_r. }
  assert (Hno : forall explicit c,
             ~ In "value" (fields c) ->
             obind (keywords explicit (VDict items')) (construct c)
             <> Ret r).
  { intros explicit c Hc. cbn [keywords].
    destruct (star_keywords explicit items') as [kw|] eqn:Ek;
      cbn; [|discriminate].
    intros Hr. destruct (star_keywords_keeps _ _ _ _ Ek Hm) as [v Hv].
    apply Hc. eapply construct_known_keywords; eauto. }
  assert (Hkey : ~ In "value" (fields TagKey))
    by (cbn; intuition discriminate).
  assert (Hgkey : ~ In "value" (fields GroupTagKey))
    by (cbn; intuition discriminate).
  destruct g; cbn [fst]; auto.
Qed.

(** * Further properties of the backend *)

(** ** One query per call, failures passed on *)

Lemma skipn_issued (w : World) (new : list Query) :
  skipn (List.length (issued w)) (issued w ++ new) = new.
Proof.
  rewrite skipn_app, skipn_all, Nat.sub_diag. reflexivity.
Qed.

(** A method that reads the window, issues a descriptor and maps the
    answer without touching the world: the descriptor is logged whatever
    the answer, and a failure of the engine is the outcome. *)
Lemma query_then_shape {B} (Q : Z -> Z -> Query) (K : pyval -> M B)
  (w : World) :
  (forall v, stateless (K v)) ->
  let m := ('(start, end_) <- get_time_range None ;;
            result <- snuba_query (Q start end_) ;; K result) in
  let q := Q (window_start w) (clock w) in
  snd (m w) = after w q /\
  (forall msg, engine q = Failure msg -> fst (m w) = Raise (EngineError msg)).
Proof.
  intros HK m q. unfold m. rewrite query_then_run. fold q.
  destruct (engine q) as [v|msg'].
  - split; [apply HK|]. discriminate.
  - split; [reflexivity|]. intros msg H. inversion H. reflexivity.
Qed.

Lemma fmap_fst_raise {A B} (f : A -> B) (m : M A) (w : World) (x : exn) :
  fst (m w) = Raise x -> fst (fmap f m w) = Raise x.
Proof.
  unfold fmap, bind, ret. destruct (m w) as [[a|e] w1]; cbn; congruence.
Qed.

Lemma fmap_query_then_shape {A B} (f : A -> B) (Q : Z -> Z -> Query)
  (K : pyval -> M A) (w : World) :
  (forall v, stateless (K v)) ->
  exists q,
    snd (fmap f ('(start, end_) <- get_time_range None ;;
                 result <- snuba_query (Q start end_) ;; K result) w)
    = after w q /\
    (forall msg,
        engine q = Failure msg ->
        fst (fmap f ('(start, end_) <- get_time_range None ;;
                     result <- snuba_query (Q start end_) ;; K result) w)
        = Raise (EngineError msg)).
Proof.
  intros HK. destruct (query_then_shape Q K w HK) as [Hs Hf].
  eexists. split.
  - rewrite fmap_snd. exact Hs.
  - intros msg Hmsg. apply fmap_fst_raise. now apply Hf.
Qed.

Ltac shaped := apply fmap_query_then_shape; intros ?; stateless_tac.

Lemma perform_shape (c : api_call) (w : World) : call_shape c w.
Proof.
  unfold call_shape.
  destruct c; cbn [issues_query perform];
    try (unfold get_tag_key, get_tag_keys, get_tag_value, get_tag_values,
           get_group_tag_key, get_group_tag_keys, get_group_tag_value,
           get_group_tag_values, get_first_release, get_last_release;
         cbv zeta).
  - reflexivity.
  - destruct (status_is _ _); [|reflexivity]. unfold __get_tag_key. shaped.
  - destruct (status_is _ _); [|reflexivity]. unfold __get_tag_keys. shaped.
  - unfold __get_tag_value. shaped.
  - unfold __get_tag_values. shaped.
  - unfold __get_tag_key. shaped.
  - unfold __get_tag_keys. shaped.
  - unfold __get_tag_value. shaped.
  - unfold __get_tag_values. shaped.
  - unfold get_group_list_tag_value. shaped.
  - unfold get_group_tag_value_count, fmap, bind, get_time_range,
      timezone_now, ret, snuba_query, default. cbn.
    eexists. split.
    + destruct (engine _); reflexivity.
    + intros msg Hmsg. rewrite Hmsg. reflexivity.
  - unfold get_top_group_tag_values. shaped.
  - unfold get_release. shaped.
  - unfold get_release. shaped.
  - unfold get_release. shaped.
  - unfold get_release_tags. shaped.
  - unfold get_group_event_ids. shaped.
  - unfold get_group_ids_for_users. shaped.
  - unfold get_group_tag_values_for_users. shaped.
  - unfold get_groups_user_counts. shaped.
  - reflexivity.
Qed.

(** X1: a call that reaches [snuba.query] logs exactly one descriptor,
    whatever the engine answers and whether or not the answer can be
    mapped; the calls that do not reach it (the time range helper, the
    search filter, the key methods stopped by their assertion) leave the
    world as it was. *)
Theorem every_call_issues_one_query_or_none :
  forall (c : api_call) (w : World),
    clock (snd (perform c w)) = clock w /\
    if issues_query c then exists q, issued_by c w = [q]
    else issued_by c w = [] /\ snd (perform c w) = w.
Proof.
  intros c w. pose proof (perform_shape c w) as H. unfold call_shape in H.
  unfold issued_by. destruct (issues_query c).
  - destruct H as (q & Hs & _). rewrite Hs. split; [reflexivity|].
    exists q. apply skipn_issued.
  - rewrite H. split; [reflexivity|]. split; [|reflexivity].
    rewrite <- (app_nil_r (issued w)) at 2. apply skipn_issued.
Qed.

(** X2: no method catches a failure of the engine: when the engine fails
    on the descriptor a call issued, the call raises that very failure. *)
Theorem engine_failure_propagates :
  forall (c : api_call) (w : World) (q : Query) (msg : string),
    issued_by c w = [q] ->
    engine q = Failure msg ->
    fst (perform c w) = Raise (EngineError msg).
Proof.
  intros c w q msg Hq Hmsg. pose proof (perform_shape c w) as H.
  unfold call_shape in H. unfold issued_by in Hq.
  destruct (issues_query c).
  - destruct H as (q' & Hs & Hf). rewrite Hs in Hq. cbn [issued after] in Hq.
    rewrite skipn_issued in Hq. inversion Hq; subst. now apply Hf.
  - rewrite H in Hq. rewrite <- (app_nil_r (issued w)) in Hq at 2.
    rewrite skipn_issued in Hq. discriminate.
Qed.

(** ** The exceptions a method can end in *)

Lemma raises_ret {A} (P : exn -> bool) (a : A) : raises P (Ret a).
Proof. intros x H. discriminate. Qed.

Lemma raises_raise {A} (P : exn -> bool) (x : exn) :
  P x = true -> raises P (@Raise A x).
Proof. intros H y Hy. inversion Hy; subst. exact H. Qed.

Lemma raises_obind {A B} (P : exn -> bool) (o : outcome A)
  (f : A -> outcome B) :
  raises P o -> (forall a, raises P (f a)) -> raises P (obind o f).
Proof.
  intros Ho Hf. destruct o as [a|e]; cbn; [apply Hf|].
  intros x H. inversion H; subst. now apply Ho.
Qed.

Lemma raises_omap {A B} (P : exn -> bool) (f : A -> outcome B)
  (xs : list A) :
  (forall a, raises P (f a)) -> raises P (omap f xs).
Proof.
  intros Hf x H. apply omap_raise in H. destruct H as (a & _ & H).
  exact (Hf a x H).
Qed.

Lemma raises_construct (P : exn -> bool) (c : cls)
  (kw : list (string * pyval)) :
  P TypeError = true -> raises P (construct c kw).
Proof. intros HP x H. apply construct_raise in H. now subst. Qed.

Lemma raises_keywords (P : exn -> bool) (explicit : list (string * pyval))
  (star : pyval) :
  P TypeError = true -> raises P (keywords explicit star).
Proof. intros HP x H. apply keywords_raise in H. now subst. Qed.

Lemma raises_items_of (P : exn -> bool) (v : pyval) :
  P AttributeError = true -> raises P (items_of v).
Proof. intros HP x H. destruct v; inversion H; subst. exact HP. Qed.

Lemma raises_keys_of (P : exn -> bool) (v : pyval) :
  P AttributeError = true -> raises P (keys_of v).
Proof.
  intros HP. apply raises_obind; [now apply raises_items_of|].
  intros a. apply raises_ret.
Qed.

Lemma raises_getitem (P : exn -> bool) (v : pyval) (k : string) :
  P KeyError = true -> P TypeError = true -> raises P (getitem v k).
Proof.
  intros HK HT x H. destruct v as [a|items]; cbn in H.
  - inversion H; subst. exact HT.
  - destruct (dict_get _ _ _); inversion H; subst. exact HK.
Qed.

Lemma raises_labelled (label : string) (name : atom) (val : pyval) :
  raises labelled_errors (labelled label name val).
Proof.
  unfold labelled.
  repeat (apply raises_obind; [now apply raises_getitem|intros ?]).
  apply raises_ret.
Qed.

Lemma raisesM_lift {A} (P : exn -> bool) (o : outcome A) :
  raises P o -> raisesM P (lift o).
Proof. intros H w. exact H. Qed.

Lemma raisesM_ret {A} (P : exn -> bool) (a : A) : raisesM P (ret a).
Proof. intros w. apply raises_ret. Qed.

Lemma raisesM_raise {A} (P : exn -> bool) (x : exn) :
  P x = true -> raisesM P (@raise A x).
Proof. intros H w. now apply raises_raise. Qed.

Lemma raisesM_bind {A B} (P : exn -> bool) (m : M A) (f : A -> M B) :
  raisesM P m -> (forall a, raisesM P (f a)) -> raisesM P (bind m f).
Proof.
  intros Hm Hf w. unfold bind. specialize (Hm w).
  destruct (m w) as [[a|e] w1]; cbn in *; [apply Hf|].
  intros x H. inversion H; subst. now apply Hm.
Qed.

Lemma raisesM_query_then {B} (P : exn -> bool) (Q : Z -> Z -> Query)
  (K : pyval -> M B) :
  (forall msg, P (EngineError msg) = true) ->
  (forall v, raisesM P (K v)) ->
  raisesM P ('(start, end_) <- get_time_range None ;;
             result <- snuba_query (Q start end_) ;; K result).
Proof.
  intros HP HK w. rewrite query_then_run.
  destruct (engine _) as [v|msg]; [apply HK|].
  cbn. now apply raises_raise.
Qed.

Lemma raisesM_fmap {A B} (P : exn -> bool) (f : A -> B) (m : M A) :
  raisesM P m -> raisesM P (fmap f m).
Proof.
  intros Hm. apply raisesM_bind; [exact Hm|]. intros a. apply raisesM_ret.
Qed.

Ltac raises_tac :=
  repeat first
    [ apply raisesM_ret | apply raises_ret
    | apply raisesM_raise; reflexivity
    | apply raises_raise; reflexivity
    | apply raisesM_lift
    | apply raisesM_bind; [|intros ?]
    | apply raises_omap; intros [? ?]
    | apply raises_obind; [|intros ?]
    | apply raises_keywords; reflexivity
    | apply raises_construct; reflexivity
    | apply raises_items_of; reflexivity
    | apply raises_keys_of; reflexivity ].

Lemma __get_tag_key_errors (p g e : atom) (key : string) :
  raisesM (fun x => match x with
                    | TagKeyNotFound => is_None g
                    | GroupTagKeyNotFound => negb (is_None g)
                    | _ => engine_failure x
                    end)
    (__get_tag_key p g e key).
Proof.
  unfold __get_tag_key. apply raisesM_query_then; [reflexivity|].
  intros v. destruct (eq_zero v).
  - destruct g; apply raisesM_raise; reflexivity.
  - destruct g; apply raisesM_lift; cbn; apply raises_ret.
Qed.

Lemma __get_tag_keys_errors (p g e : atom) (limit : option (option Z)) :
  raisesM keys_errors (__get_tag_keys p g e limit).
Proof.
  unfold __get_tag_keys. cbv zeta.
  apply raisesM_query_then; [reflexivity|]. intros v.
  apply raisesM_bind; [apply raisesM_lift, raises_items_of; reflexivity|].
  intros items. apply raisesM_lift, raises_omap. intros [k n].
  destruct g; cbn; apply raises_ret.
Qed.

Lemma __get_tag_value_errors (p g e : atom) (key : string) (value : atom) :
  raisesM (fun x => match x with
                    | TagValueNotFound => is_None g
                    | GroupTagValueNotFound => negb (is_None g)
                    | _ => rows_errors x
                    end)
    (__get_tag_value p g e key value).
Proof.
  unfold __get_tag_value. apply raisesM_query_then; [reflexivity|].
  intros v. destruct (negb (truthy v)).
  - destruct g; apply raisesM_raise; reflexivity.
  - apply raisesM_bind.
    + apply raisesM_lift. destruct v; cbn;
        [apply raises_raise; reflexivity|apply raises_ret].
    + intros data. destruct g; raises_tac.
Qed.

Lemma __get_tag_values_errors (p g e : atom) (key : string) :
  raisesM rows_errors (__get_tag_values p g e key).
Proof.
  unfold __get_tag_values. cbv zeta.
  apply raisesM_query_then; [reflexivity|]. intros v.
  apply raisesM_bind; [apply raisesM_lift, raises_items_of; reflexivity|].
  intros items. apply raisesM_lift, raises_omap. intros [k d].
  apply raises_obind; [apply raises_keywords; reflexivity|].
  intros kw. destruct g; apply raises_construct; reflexivity.
Qed.

Lemma get_release_errors (p g : atom) (first : option bool) :
  raisesM keys_errors (get_release p g first).
Proof.
  unfold get_release. cbv zeta.
  apply raisesM_query_then; [reflexivity|]. intros v.
  destruct v as [a|[|[k d] items]].
  - destruct (negb (truthy (VAtom a)));
      [apply raisesM_ret|apply raisesM_lift, raises_raise; reflexivity].
  - apply raisesM_ret.
  - apply raisesM_lift, raises_ret.
Qed.

(** X3: the exceptions of the public interface, [get_time_range] apart.
    Besides a failure of the engine, a call can only end in: the
    assertion error of the two key methods; the not-found condition of
    its scope, for the four singular lookups only; an attribute error
    when the answer is not a mapping; a type error when a row does not
    fit a record; a key error when a row of the release or user
    statistics lacks a column; and the not-implemented error of the
    search filter.  In particular none of these calls ends in an index
    error. *)
Theorem public_methods_raise_only :
  forall (c : api_call) (w : World) (x : exn),
    fst (perform c w) = Raise x -> may_raise c x = true.
Proof.
  intros c. change (raisesM (may_raise c) (perform c)).
  destruct c; cbn [perform may_raise]; apply raisesM_fmap;
    try (unfold get_tag_key, get_tag_keys, get_tag_value, get_tag_values,
           get_group_tag_key, get_group_tag_keys, get_group_tag_value,
           get_group_tag_values, get_first_release, get_last_release;
         cbv zeta).
  - intros w x _. reflexivity.
  - destruct (status_is _ _); [|apply raisesM_raise; reflexivity].
    intros w x H. apply (__get_tag_key_errors _ ANone) in H.
    destruct x; cbn in H |- *; congruence.
  - destruct (status_is _ _); [|apply raisesM_raise; reflexivity].
    intros w x H. apply __get_tag_keys_errors in H.
    destruct x; cbn in H |- *; congruence.
  - intros w x H. apply (__get_tag_value_errors _ ANone) in H.
    destruct x; cbn in H |- *; congruence.
  - apply __get_tag_values_errors.
  - apply __get_tag_key_errors.
  - apply __get_tag_keys_errors.
  - apply __get_tag_value_errors.
  - apply __get_tag_values_errors.
  - unfold get_group_list_tag_value.
    apply raisesM_query_then; [reflexivity|]. intros v. raises_tac.
  - unfold get_group_tag_value_count, bind, get_time_range, timezone_now,
      ret, snuba_query, default. intros w. cbn.
    destruct (engine _); [apply raises_ret|apply raises_raise; reflexivity].
  - unfold get_top_group_tag_values. cbv zeta.
    apply raisesM_query_then; [reflexivity|]. intros v. raises_tac.
  - apply get_release_errors.
  - apply get_release_errors.
  - apply get_release_errors.
  - unfold get_release_tags.
    apply raisesM_query_then; [reflexivity|]. intros v.
    apply raisesM_bind; [apply raisesM_lift, raises_items_of; reflexivity|].
    intros items. apply raisesM_lift, raises_omap. intros [k d].
    apply raises_labelled.
  - unfold get_group_event_ids.
    apply raisesM_query_then; [reflexivity|]. intros v. raises_tac.
  - unfold get_group_ids_for_users. cbv zeta.
    apply raisesM_query_then; [reflexivity|]. intros v. raises_tac.
  - unfold get_group_tag_values_for_users. cbv zeta.
    apply raisesM_query_then; [reflexivity|]. intros v.
    apply raisesM_bind; [apply raisesM_lift, raises_items_of; reflexivity|].
    intros items. apply raisesM_lift, raises_omap. intros [k d].
    apply raises_labelled.
  - unfold get_groups_user_counts.
    apply raisesM_query_then; [reflexivity|]. intros v. raises_tac.
  - apply raisesM_raise. reflexivity.
Qed.

(** ** Records of the key and value methods *)

(** X4: a key lookup raises not-found only on the answer 0.  Any other
    answer, the integer 7 as well as None, becomes the values_seen of
    the record: a key record without an issue scope, a group key record
    carrying the group id with one. *)
Theorem key_lookup_builds_record :
  forall (project_id group_id environment_id : atom) (key : string)
         (status : option Status) (result : pyval) (w : World),
    eq_zero result = false ->
    default VISIBLE status = VISIBLE ->
    let s := window_start w in
    let t := clock w in
    (engine (__get_tag_key_query s t project_id ANone environment_id key)
       = Answer result ->
     fst (get_tag_key project_id environment_id key status w)
       = Ret (mkInstance TagKey
                [("key", VStr key); ("values_seen", result)])) /\
    (group_id <> ANone ->
     engine (__get_tag_key_query s t project_id group_id environment_id key)
       = Answer result ->
     fst (get_group_tag_key project_id group_id environment_id key w)
       = Ret (mkInstance GroupTagKey
                [("group_id", VAtom group_id); ("key", VStr key);
                 ("values_seen", result)])).
Proof.
  intros p g e key status result w Hnz Hst s t. split.
  - intros Hq. unfold get_tag_key. cbv zeta. rewrite Hst.
    rewrite (proj2 (status_is_true _ _) eq_refl).
    unfold __get_tag_key. rewrite query_then_run. fold s t.
    rewrite Hq, Hnz. reflexivity.
  - intros Hg Hq. unfold get_group_tag_key, __get_tag_key.
    rewrite query_then_run. fold s t. rewrite Hq, Hnz.
    destruct g; [congruence|reflexivity..].
Qed.

Lemma omap_map {A B} (f : A -> outcome B) (g : A -> B) (xs : list A) :
  (forall a, In a xs -> f a = Ret (g a)) -> omap f xs = Ret (map g xs).
Proof.
  induction xs as [|a xs IH]; intros H; cbn; [reflexivity|].
  rewrite (H a (or_introl eq_refl)), IH; [reflexivity|].
  intros b Hb. apply H. now right.
Qed.

Lemma omap_over_map {A B C} (f : B -> outcome C) (k : A -> B) (h : A -> C)
  (xs : list A) :
  (forall x, f (k x) = Ret (h x)) -> omap f (map k xs) = Ret (map h xs).
Proof.
  intros Hf. induction xs as [|x xs IH]; cbn [map omap]; [reflexivity|].
  rewrite Hf, IH. reflexivity.
Qed.

(** X5: a key listing of a group drops the rows whose count is false (0
    or None) and turns the others, in the order of the answer, into
    group key records that all carry the group id of the call.  Unlike
    [get_tag_keys], which asks for 1000 rows at most, it asks without a
    limit unless the caller gives one. *)
Theorem group_key_listing_records :
  forall (project_id group_id environment_id : atom)
         (limit : option (option Z)) (rows : list (atom * pyval))
         (w : World),
    group_id <> ANone ->
    let q := __get_tag_keys_query (window_start w) (clock w) project_id
               group_id environment_id (default None limit) in
    engine q = Answer (VDict rows) ->
    q_limit q = default None limit /\
    snd (get_group_tag_keys project_id group_id environment_id limit w)
      = after w q /\
    fst (get_group_tag_keys project_id group_id environment_id limit w)
      = Ret (map (fun row =>
                    mkInstance GroupTagKey
                      [("group_id", VAtom group_id);
                       ("key", VAtom (fst row));
                       ("values_seen", snd row)])
               (filter (fun row => truthy (snd row)) rows)).
Proof.
  intros p g e limit rows w Hg q Hq. split; [reflexivity|].
  unfold get_group_tag_keys, __get_tag_keys. cbv zeta.
  rewrite query_then_run. cbn [default]. fold q. rewrite Hq.
  unfold bind, lift. cbn [items_of fst snd].
  erewrite omap_map; [split; reflexivity|].
  intros [k v] _. destruct g; [congruence|reflexivity..].
Qed.

(** X6: a value listing turns every row of the three aggregates into one
    record, in the order of the answer: a tag value record without an
    issue scope, a group tag value record carrying the group id of the
    call with one; each has the key of the call and the value of its
    row. *)
Theorem value_listing_records :
  forall (project_id group_id environment_id : atom) (key : string)
         (rows : list (atom * (Z * pyval * pyval))) (w : World),
    let answer_rows :=
      map (fun row => (fst row,
                       stats_row (fst (fst (snd row))) (snd (fst (snd row)))
                         (snd (snd row)))) rows in
    engine (__get_tag_values_query (window_start w) (clock w) project_id
              group_id environment_id key) = Answer (VDict answer_rows) ->
    get_tag_values project_id environment_id key
      = get_group_tag_values project_id ANone environment_id key /\
    fst (get_group_tag_values project_id group_id environment_id key w)
      = Ret (map (fun row =>
                    let stats :=
                      [("key", VStr key); ("value", VAtom (fst row));
                       ("times_seen", VInt (fst (fst (snd row))));
                       ("first_seen", snd (fst (snd row)));
                       ("last_seen", snd (snd row))] in
                    if is_None group_id then mkInstance TagValue stats
                    else mkInstance GroupTagValue
                           (("group_id", VAtom group_id) :: stats))
               rows).
Proof.
  intros p g e key rows w answer_rows Hq. split; [reflexivity|].
  unfold get_group_tag_values, __get_tag_values. cbv zeta.
  rewrite query_then_run, Hq. unfold bind, lift. cbn [items_of fst snd].
  unfold answer_rows.
  erewrite (omap_over_map _ _ _ rows); [reflexivity|].
  intros [v [[n f] l]]. destruct g; reflexivity.
Qed.

(** ** Labelled records *)

Lemma dict_get_set_string {V} (k k0 : string) (v : V)
  (d : list (string * V)) :
  dict_get String.eqb k (dict_set String.eqb k0 v d)
  = if String.eqb k k0 then Some v else dict_get String.eqb k d.
Proof.
  induction d as [|[k' v'] d IH]; cbn.
  - reflexivity.
  - destruct (String.eqb k0 k') eqn:E0; cbn.
    + apply String.eqb_eq in E0. subst k'.
      destruct (String.eqb k k0); reflexivity.
    + destruct (String.eqb k k') eqn:E1.
      * apply String.eqb_eq in E1. subst k'.
        rewrite String.eqb_sym, E0. reflexivity.
      * exact IH.
Qed.

(** X7: wrapping a dictionary forces its id to 0, whether or not it had
    one, and leaves every other attribute as it was. *)
Theorem ObjectWrapper_id_is_zero :
  forall (dictionary : list (string * pyval)),
    dict_get String.eqb "id" (__dict__ (ObjectWrapper_init dictionary))
      = Some (VInt 0) /\
    (forall name,
        name <> "id" ->
        dict_get String.eqb name (__dict__ (ObjectWrapper_init dictionary))
          = dict_get String.eqb name dictionary).
Proof.
  intros d. unfold ObjectWrapper_init. cbn [__dict__]. split.
  - rewrite dict_get_set_string. reflexivity.
  - intros name Hname. rewrite dict_get_set_string.
    destruct (String.eqb name "id") eqn:E; [|reflexivity].
    apply String.eqb_eq in E. contradiction.
Qed.

(** X8: the release statistics and the user statistics turn every row of
    count, first_seen and last_seen into one labelled record, in the
    order of the answer: the count becomes times_seen, the key is the
    fixed label (release, sentry:user), the value is the key of the row
    and the id is 0. *)
Theorem labelled_statistics_records :
  forall (project_ids : list atom) (environment_id : atom)
         (versions : list atom) (event_users : list EventUser)
         (limit : option (option Z))
         (rows : list (atom * (pyval * pyval * pyval))) (w : World),
    (engine (get_release_tags_query (window_start w) (clock w) project_ids
               environment_id versions) = Answer (answer_of_count_rows rows) ->
     fst (get_release_tags project_ids environment_id versions w)
       = Ret (map (labelled_record "release") rows)) /\
    (engine (get_group_tag_values_for_users_query (window_start w) (clock w)
               event_users (default (Some 100) limit))
       = Answer (answer_of_count_rows rows) ->
     fst (get_group_tag_values_for_users event_users limit w)
       = Ret (map (labelled_record "sentry:user") rows)).
Proof.
  intros pids e versions eus limit rows w. split; intros Hq.
  - unfold get_release_tags. rewrite query_then_run, Hq.
    unfold bind, lift, answer_of_count_rows. cbn [items_of fst snd].
    erewrite (omap_over_map _ _ _ rows); [reflexivity|].
    intros [name [[c f] l]]. reflexivity.
  - unfold get_group_tag_values_for_users. cbv zeta.
    rewrite query_then_run, Hq.
    unfold bind, lift, answer_of_count_rows. cbn [items_of fst snd].
    erewrite (omap_over_map _ _ _ rows); [reflexivity|].
    intros [name [[c f] l]]. reflexivity.
Qed.

(** ** Methods that hand back keys *)

(** X9: the event id lookup and the group id lookup for users hand back
    the keys of the engine's mapping in its order, the empty list for an
    empty mapping, and end in an attribute error when the answer is no
    mapping.  The event id lookup takes a group id but its descriptor has
    no issue filter and no aggregation, and one equality clause per tag;
    the group id lookup asks for 100 rows at most unless told otherwise,
    latest seen first. *)
Theorem key_lookups_return_answer_keys :
  forall (project_id group_id environment_id : atom)
         (tags : list (string * atom)) (project_ids : list atom)
         (event_users : list EventUser) (limit : option (option Z))
         (w : World),
    let qe := get_group_event_ids_query (window_start w) (clock w)
                project_id environment_id tags in
    let qu := get_group_ids_for_users_query (window_start w) (clock w)
                project_ids event_users (default (Some 100) limit) in
    get_group_event_ids project_id group_id environment_id tags w
      = (keys_outcome (engine qe), after w qe) /\
    dict_get String.eqb "issue" (q_filters qe) = None /\
    q_aggregations qe = None /\
    (exists clauses,
        q_conditions qe = Some [OrGroup clauses] /\
        List.length clauses = List.length tags /\
        forall tag val,
          In (tag, val) tags -> In (tag_column tag, "=", LAtom val) clauses) /\
    get_group_ids_for_users project_ids event_users limit w
      = (keys_outcome (engine qu), after w qu) /\
    q_limit qu = default (Some 100) limit /\
    q_orderby qu = Some "-seen".
Proof.
  intros p g e tags pids eus limit w qe qu.
  split; [|split; [reflexivity|split; [reflexivity|split; [|split]]]].
  - unfold get_group_event_ids. rewrite query_then_run. fold qe.
    destruct (engine qe) as [[a|rows]|msg]; reflexivity.
  - eexists. split; [reflexivity|]. split; [apply length_map|].
    intros tag val Hin. apply in_map_iff. exists (tag, val). auto.
  - unfold get_group_ids_for_users. cbv zeta. rewrite query_then_run.
    fold qu. destruct (engine qu) as [[a|rows]|msg]; reflexivity.
  - split; reflexivity.
Qed.

(** ** Issue scoping *)

(** X10: the descriptors of the key, keys, value and values methods
    filter on the project and the environment of the call and, exactly
    when a group id is given, on that one issue; the descriptor of the
    release lookup does the same without an environment filter. *)
Theorem issue_filter_follows_group_id :
  forall (s t : Z) (project_id group_id environment_id : atom) (key : string)
         (value : atom) (limit : option Z) (first : bool),
    let scoped (q : Query) :=
      dict_get String.eqb "project_id" (q_filters q) = Some [project_id] /\
      dict_get String.eqb "issue" (q_filters q)
        = (if is_None group_id then None else Some [group_id]) in
    (forall q,
        In q [__get_tag_key_query s t project_id group_id environment_id key;
              __get_tag_keys_query s t project_id group_id environment_id
                limit;
              __get_tag_value_query s t project_id group_id environment_id
                key value;
              __get_tag_values_query s t project_id group_id environment_id
                key] ->
        scoped q /\
        dict_get String.eqb "environment" (q_filters q)
          = Some [environment_id]) /\
    scoped (get_release_query s t project_id group_id first) /\
    dict_get String.eqb "environment"
      (q_filters (get_release_query s t project_id group_id first)) = None.
Proof.
  intros s t p g e key value limit first scoped. unfold scoped.
  split; [|destruct g; repeat split].
  intros q Hin. cbn [In] in Hin.
  destruct Hin as [<-|[<-|[<-|[<-|[]]]]]; destruct g; repeat split.
Qed.

(** ** Identity values sent to the engine *)

Lemma identifiers_In (field : EventUser -> atom)
  (event_users : list EventUser) (a : atom) :
  In a (identifiers field event_users) <->
  exists eu, In eu event_users /\ field eu = a /\ truthy (VAtom a) = true.
Proof.
  unfold identifiers. rewrite in_map_iff. split.
  - intros (eu & <- & Hin). apply filter_In in Hin. destruct Hin. eauto.
  - intros (eu & Hin & <- & Ht). exists eu. split; [reflexivity|].
    apply filter_In. auto.
Qed.

(** X11: whatever the event users, a clause of the OR-group names one of
    the four identity columns and lists only true values, each the
    attribute of that column of some event user: None and the empty
    string never reach the engine, and no clause has an empty list. *)
Theorem identity_clauses_list_true_values :
  forall (event_users : list EventUser) (column operator : string)
         (values : literal),
    In (column, operator, values) (or_conditions_of event_users) ->
    operator = "IN" /\
    exists field ids,
      In (column, field)
        [("user_id", ident); ("email", email); ("username", username);
         ("ip_address", ip_address)] /\
      values = LList ids /\
      ids <> [] /\
      forall a,
        In a ids ->
        truthy (VAtom a) = true /\
        exists eu, In eu event_users /\ field eu = a.
Proof.
  intros eus column operator values Hin.
  apply or_conditions_of_In in Hin.
  destruct Hin as (column' & field & Hf & Heq & Hne).
  inversion Heq; subst. split; [reflexivity|].
  exists field, (identifiers field eus).
  split; [exact Hf|]. split; [reflexivity|]. split; [exact Hne|].
  intros a Ha. apply identifiers_In in Ha.
  destruct Ha as (eu & Heu & Hfa & Ht). eauto.
Qed.

(** ** Membership in the user counts *)

(** X12: the user counts handed back have exactly the issues of the
    engine's rows as keys: before it is looked up, a requested issue
    without a row is not a member of the dictionary, so iterating over
    the result visits the engine's rows only.  An answer that is no
    mapping ends in an attribute error. *)
Theorem user_counts_members_are_answer_rows :
  forall (project_id : atom) (group_ids : list atom) (environment_id : atom)
         (w : World),
    let q := get_groups_user_counts_query (window_start w) (clock w)
               project_id group_ids environment_id in
    (forall rows,
        engine q = Answer (VDict rows) ->
        exists counts,
          fst (get_groups_user_counts project_id group_ids environment_id w)
            = Ret counts /\
          forall issue,
            dd_contains counts issue = dict_mem atom_eqb issue rows) /\
    (forall a,
        engine q = Answer (VAtom a) ->
        fst (get_groups_user_counts project_id group_ids environment_id w)
          = Raise AttributeError) /\
    q_conditions q = None /\
    dict_get String.eqb "issue" (q_filters q) = Some group_ids.
Proof.
  intros p gids e w q. split; [|split; [|split; reflexivity]].
  - intros rows Hq. exists (defaultdict_int rows). split.
    + unfold get_groups_user_counts. rewrite query_then_run. fold q.
      rewrite Hq. reflexivity.
    + intros issue. unfold dd_contains, defaultdict_int. cbn [dd_items].
      rewrite dict_update_mem. reflexivity.
  - intros a Hq. unfold get_groups_user_counts. rewrite query_then_run.
    fold q. rewrite Hq. reflexivity.
Qed.

End Backend.

(** * The value lookup on a concrete answer *)

(** C1: the spec has a value lookup hand back a tag value record.  With
    the engine answering times_seen 3, first_seen 10 and last_seen 20
    for browser = Chrome, [get_tag_value] and [get_group_tag_value]
    instead call the key constructors with these keywords and end in a
    type error, although the same keywords make the tag value records
    the listing methods build. *)
Theorem C1_value_lookup_calls_key_constructor :
  let engine := answering (stats_row 3 (VInt 10) (VInt 20)) in
  let data := VDict [(AStr "times_seen", VInt 3); (AStr "first_seen", VInt 10);
                     (AStr "last_seen", VInt 20); (AStr "key", VStr "browser");
                     (AStr "value", VStr "Chrome")] in
  fst (get_tag_value engine (AInt 1) (AInt 1) "browser" (AStr "Chrome") noon)
    = Raise TypeError /\
  fst (get_group_tag_value engine (AInt 1) (AInt 7) (AInt 1) "browser"
         (AStr "Chrome") noon) = Raise TypeError /\
  obind (keywords [] data) (construct TagValue)
    = Ret (mkInstance TagValue
             [("key", VStr "browser"); ("value", VStr "Chrome");
              ("times_seen", VInt 3); ("first_seen", VInt 10);
              ("last_seen", VInt 20)]) /\
  obind (keywords [("group_id", VInt 7)] data) (construct GroupTagValue)
    = Ret (mkInstance GroupTagValue
             [("group_id", VInt 7); ("key", VStr "browser");
              ("value", VStr "Chrome"); ("times_seen", VInt 3);
              ("first_seen", VInt 10); ("last_seen", VInt 20)]).
Proof. repeat split. Qed.

(** * The statements at concrete inputs *)

Lemma C10_status_must_be_visible_witness :
  SPendingDeletion <> SVisible /\
  get_tag_key SampleStatus SVisible SampleStatus_eq_dec (answering (VInt 7))
    (AInt 1) (AInt 1) "browser" (Some SPendingDeletion) noon
  = (Raise AssertionError, noon).
Proof.
  assert (H : SPendingDeletion <> SVisible) by discriminate.
  split; [exact H|].
  exact (proj1 (C10_status_must_be_visible SampleStatus SVisible
                  SampleStatus_eq_dec (answering (VInt 7)) (AInt 1) (AInt 1)
                  "browser" SPendingDeletion noon H)).
Defined.

Lemma C4_user_counts_default_on_lookup_witness :
  let rows := [(AInt 10, VInt 3)] in
  let requested := [AInt 10; AInt 11] in
  answering (VDict rows)
    (get_groups_user_counts_query (window_start noon) (clock noon) (AInt 1)
       requested (AInt 1)) = Answer (VDict rows) /\
  exists counts,
    fst (get_groups_user_counts (answering (VDict rows)) (AInt 1) requested
           (AInt 1) noon) = Ret counts /\
    dd_contains counts (AInt 11) = false /\
    fst (dd_getitem counts (AInt 11)) = VInt 0 /\
    In (AInt 10, fst (dd_getitem counts (AInt 10))) rows.
Proof.
  intros rows requested.
  assert (H1 : answering (VDict rows)
                 (get_groups_user_counts_query (window_start noon)
                    (clock noon) (AInt 1) requested (AInt 1))
               = Answer (VDict rows)) by reflexivity.
  split; [exact H1|].
  destruct (C4_user_counts_default_on_lookup (answering (VDict rows)) (AInt 1)
              requested (AInt 1) rows noon H1) as (counts & Hrun & Hall).
  exists counts. split; [exact Hrun|].
  destruct (Hall (AInt 11)) as (_ & H11 & _).
  destruct (H11 eq_refl) as (Hzero & Habsent & _).
  destruct (Hall (AInt 10)) as (_ & _ & H10 & _).
  split; [exact Habsent|]. split; [exact Hzero|].
  apply H10. discriminate.
Defined.

(** C4, as the spec words it, fails: asked for the issues 10 and 11 when
    the engine has a row for 10 only, the dictionary handed back does
    not have 11 among its keys. *)
Lemma C4_requested_issue_without_row_is_absent :
  let rows := [(AInt 10, VInt 3)] in
  let requested := [AInt 10; AInt 11] in
  ~ (exists counts,
        fst (get_groups_user_counts (answering (VDict rows)) (AInt 1)
               requested (AInt 1) noon) = Ret counts /\
        forall issue, In issue requested ->
                      dd_contains counts issue = true).
Proof.
  intros rows requested (counts & Hrun & Hall).
  cbv in Hrun. inversion Hrun; subst counts; clear Hrun.
  specialize (Hall (AInt 11) (or_intror (or_introl eq_refl))).
  cbv in Hall. discriminate.
Qed.

Lemma C6_group_list_tag_value_mapping_witness :
  let rows := [(AInt 10, stats_row 3 (VInt 100) (VInt 200))] in
  let requested := [AInt 10; AInt 11] in
  let engine := answering (VDict rows) in
  engine (get_group_list_tag_value_query (window_start noon) (clock noon)
            (AInt 1) requested (AInt 1) "env" (AStr "prod"))
    = Answer (VDict rows) /\
  Forall (fun row => exists n f l, snd row = stats_row n f l) rows /\
  exists mapping,
    fst (get_group_list_tag_value engine (AInt 1) requested (AInt 1) "env"
           (AStr "prod") noon) = Ret mapping /\
    dict_mem atom_eqb (AInt 10) mapping = true /\
    dict_get atom_eqb (AInt 11) mapping = None.
Proof.
  intros rows requested engine.
  assert (H1 : engine (get_group_list_tag_value_query (window_start noon)
                         (clock noon) (AInt 1) requested (AInt 1) "env"
                         (AStr "prod")) = Answer (VDict rows)) by reflexivity.
  assert (H2 : Forall (fun row => exists n f l, snd row = stats_row n f l)
                 rows).
  { constructor; [|constructor]. exists 3, (VInt 100), (VInt 200).
    reflexivity. }
  split; [exact H1|]. split; [exact H2|].
  destruct (C6_group_list_tag_value_mapping engine (AInt 1) requested
              (AInt 1) "env" (AStr "prod") rows noon H1 H2)
    as (mapping & Hrun & _ & Hmem & Habsent).
  exists mapping. split; [exact Hrun|]. split.
  - rewrite Hmem. reflexivity.
  - apply Habsent; [right; left; reflexivity | reflexivity].
Defined.




Lemma C2_identity_or_group_witness :
  let q := get_group_ids_for_users_query (window_start noon) (clock noon)
             [AInt 1] [anonymous] (Some 100) in
  (forall field,
      In field [ident; email; username; ip_address] ->
      identifiers field [anonymous] = []) /\
  issued (snd (get_group_ids_for_users (answering (VDict [])) [AInt 1]
                 [anonymous] None noon)) = [q] /\
  q_conditions q = Some [OrGroup []] /\
  (forall r : unit,
      conditions_hold unit (fun _ _ => false) true r (q_conditions q)
      = true) /\
  or_conditions_of [anonymous; jane]
  = [("email", "IN", LList [AStr "jane@example.com"]);
     ("ip_address", "IN", LList [AStr "10.0.0.1"])].
Proof.
  intros q.
  assert (H : forall field,
             In field [ident; email; username; ip_address] ->
             identifiers field [anonymous] = []).
  { intros field [<-|[<-|[<-|[<-|[]]]]]; reflexivity. }
  split; [exact H|].
  pose proof (C2_identity_or_group (answering (VDict [])) [AInt 1]
                [anonymous] None unit (fun _ _ => false) noon) as Hc.
  cbv zeta in Hc. destruct Hc as (Hs & _ & _ & _ & _ & _ & Hvac).
  destruct (Hvac H) as (Hq & _ & Hgroup).
  split; [rewrite Hs; reflexivity|].
  split; [exact Hq|]. split; [|reflexivity].
  intros r. exact (proj1 (Hgroup true r)).
Defined.

(** * The further properties at concrete inputs *)

Lemma engine_failure_propagates_witness :
  let c := Call_get_release SampleStatus (AInt 1) ANone None in
  let q := get_release_query (window_start noon) (clock noon) (AInt 1) ANone
             true in
  issued_by SampleStatus SVisible SampleStatus_eq_dec (failing "timeout") c
    noon = [q] /\
  failing "timeout" q = Failure "timeout" /\
  fst (perform SampleStatus SVisible SampleStatus_eq_dec (failing "timeout")
         c noon) = Raise (EngineError "timeout").
Proof.
  intros c q.
  assert (H1 : issued_by SampleStatus SVisible SampleStatus_eq_dec
                 (failing "timeout") c noon = [q]) by reflexivity.
  assert (H2 : failing "timeout" q = Failure "timeout") by reflexivity.
  split; [exact H1|]. split; [exact H2|].
  exact (engine_failure_propagates SampleStatus SVisible SampleStatus_eq_dec
           (failing "timeout") c noon q "timeout" H1 H2).
Defined.

Lemma public_methods_raise_only_witness :
  let engine := answering (VDict [(AStr "1.0", stats_row 3 (VInt 10)
                                                 (VInt 20))]) in
  let c := Call_get_release_tags SampleStatus [AInt 1] (AInt 1) [AStr "1.0"] in
  fst (perform SampleStatus SVisible SampleStatus_eq_dec engine c noon)
    = Raise KeyError /\
  may_raise SampleStatus c KeyError = true.
Proof.
  intros engine c.
  assert (H : fst (perform SampleStatus SVisible SampleStatus_eq_dec engine c
                     noon) = Raise KeyError) by reflexivity.
  split; [exact H|].
  exact (public_methods_raise_only SampleStatus SVisible SampleStatus_eq_dec
           engine c noon KeyError H).
Defined.

Lemma key_lookup_builds_record_witness :
  eq_zero (VInt 7) = false /\
  eq_zero VNone = false /\
  default SVisible (@None SampleStatus) = SVisible /\
  AInt 42 <> ANone /\
  fst (get_tag_key SampleStatus SVisible SampleStatus_eq_dec
         (answering (VInt 7)) (AInt 1) (AInt 1) "browser" None noon)
    = Ret (mkInstance TagKey [("key", VStr "browser");
                              ("values_seen", VInt 7)]) /\
  fst (get_group_tag_key (answering VNone) (AInt 1) (AInt 42) (AInt 1)
         "browser" noon)
    = Ret (mkInstance GroupTagKey [("group_id", VInt 42);
                                   ("key", VStr "browser");
                                   ("values_seen", VNone)]).
Proof.
  assert (H7 : eq_zero (VInt 7) = false) by reflexivity.
  assert (Hn : eq_zero VNone = false) by reflexivity.
  assert (Hs : default SVisible (@None SampleStatus) = SVisible)
    by reflexivity.
  assert (Hg : AInt 42 <> ANone) by discriminate.
  do 4 (split; [assumption|]). split.
  - apply (key_lookup_builds_record SampleStatus SVisible SampleStatus_eq_dec
             (answering (VInt 7)) (AInt 1) (AInt 42) (AInt 1) "browser" None
             (VInt 7) noon H7 Hs).
    reflexivity.
  - apply (key_lookup_builds_record SampleStatus SVisible SampleStatus_eq_dec
             (answering VNone) (AInt 1) (AInt 42) (AInt 1) "browser" None
             VNone noon Hn Hs); [exact Hg|reflexivity].
Defined.

Lemma group_key_listing_records_witness :
  let rows := [(AStr "browser", VInt 7); (AStr "device", VInt 0);
               (AStr "os", VInt 4)] in
  AInt 42 <> ANone /\
  answering (VDict rows)
    (__get_tag_keys_query (window_start noon) (clock noon) (AInt 1) (AInt 42)
       (AInt 1) None) = Answer (VDict rows) /\
  fst (get_group_tag_keys (answering (VDict rows)) (AInt 1) (AInt 42)
         (AInt 1) None noon)
    = Ret [mkInstance GroupTagKey [("group_id", VInt 42);
                                   ("key", VStr "browser");
                                   ("values_seen", VInt 7)];
           mkInstance GroupTagKey [("group_id", VInt 42);
                                   ("key", VStr "os");
                                   ("values_seen", VInt 4)]].
Proof.
  intros rows.
  assert (Hg : AInt 42 <> ANone) by discriminate.
  assert (Hq : answering (VDict rows)
                 (__get_tag_keys_query (window_start noon) (clock noon)
                    (AInt 1) (AInt 42) (AInt 1) None) = Answer (VDict rows))
    by reflexivity.
  split; [exact Hg|]. split; [exact Hq|].
  exact (proj2 (proj2 (group_key_listing_records (answering (VDict rows))
                         (AInt 1) (AInt 42) (AInt 1) None rows noon Hg Hq))).
Defined.

Lemma value_listing_records_witness :
  let rows := [(AStr "Chrome", (5, VInt 100, VInt 200));
               (AStr "Firefox", (2, VInt 110, VInt 190))] in
  let engine := answering
                  (VDict [(AStr "Chrome", stats_row 5 (VInt 100) (VInt 200));
                          (AStr "Firefox",
                           stats_row 2 (VInt 110) (VInt 190))]) in
  fst (get_group_tag_values engine (AInt 1) (AInt 42) (AInt 1) "browser" noon)
    = Ret [mkInstance GroupTagValue
             [("group_id", VInt 42); ("key", VStr "browser");
              ("value", VStr "Chrome"); ("times_seen", VInt 5);
              ("first_seen", VInt 100); ("last_seen", VInt 200)];
           mkInstance GroupTagValue
             [("group_id", VInt 42); ("key", VStr "browser");
              ("value", VStr "Firefox"); ("times_seen", VInt 2);
              ("first_seen", VInt 110); ("last_seen", VInt 190)]].
Proof.
  intros rows engine.
  exact (proj2 (value_listing_records engine (AInt 1) (AInt 42) (AInt 1)
                  "browser" rows noon eq_refl)).
Defined.

Lemma ObjectWrapper_id_is_zero_witness :
  let dictionary := [("id", VInt 99); ("key", VStr "release")] in
  "key" <> "id" /\
  dict_get String.eqb "id" (__dict__ (ObjectWrapper_init dictionary))
    = Some (VInt 0) /\
  dict_get String.eqb "key" (__dict__ (ObjectWrapper_init dictionary))
    = dict_get String.eqb "key" dictionary.
Proof.
  intros dictionary.
  assert (H : "key" <> "id") by discriminate.
  split; [exact H|].
  destruct (ObjectWrapper_id_is_zero dictionary) as [Hid Hrest].
  split; [exact Hid|exact (Hrest "key" H)].
Defined.

Lemma labelled_statistics_records_witness :
  let rows := [(AStr "1.0", (VInt 3, VInt 10, VInt 20))] in
  let engine := answering (answer_of_count_rows rows) in
  fst (get_release_tags engine [AInt 1] (AInt 1) [AStr "1.0"] noon)
    = Ret [mkObjectWrapper
             [("times_seen", VInt 3); ("first_seen", VInt 10);
              ("last_seen", VInt 20); ("key", VStr "release");
              ("value", VStr "1.0"); ("id", VInt 0)]] /\
  fst (get_group_tag_values_for_users engine [jane] None noon)
    = Ret [mkObjectWrapper
             [("times_seen", VInt 3); ("first_seen", VInt 10);
              ("last_seen", VInt 20); ("key", VStr "sentry:user");
              ("value", VStr "1.0"); ("id", VInt 0)]].
Proof.
  intros rows engine.
  destruct (labelled_statistics_records engine [AInt 1] (AInt 1) [AStr "1.0"]
              [jane] None rows noon) as [Hr Hu].
  split; [apply Hr|apply Hu]; reflexivity.
Defined.

Lemma key_lookups_return_answer_keys_witness :
  let engine := answering (VDict [(AStr "e1", VNone); (AStr "e2", VNone)]) in
  let tags := [("browser", AStr "Chrome"); ("os", AStr "Linux")] in
  fst (get_group_event_ids engine (AInt 1) (AInt 42) (AInt 1) tags noon)
    = Ret [AStr "e1"; AStr "e2"] /\
  fst (get_group_event_ids engine (AInt 1) (AInt 43) (AInt 1) tags noon)
    = Ret [AStr "e1"; AStr "e2"] /\
  fst (get_group_ids_for_users (answering VNone) [AInt 1] [jane] None noon)
    = Raise AttributeError.
Proof.
  intros engine tags.
  pose proof (key_lookups_return_answer_keys engine (AInt 1) (AInt 42)
                (AInt 1) tags [AInt 1] [jane] None noon) as H42.
  pose proof (key_lookups_return_answer_keys engine (AInt 1) (AInt 43)
                (AInt 1) tags [AInt 1] [jane] None noon) as H43.
  pose proof (key_lookups_return_answer_keys (answering VNone) (AInt 1)
                (AInt 42) (AInt 1) tags [AInt 1] [jane] None noon) as Hnone.
  cbv zeta in H42, H43, Hnone.
  destruct H42 as (H42 & _). destruct H43 as (H43 & _).
  destruct Hnone as (_ & _ & _ & _ & Hnone & _).
  rewrite H42, H43, Hnone. repeat split.
Defined.

Lemma issue_filter_follows_group_id_witness :
  let q := __get_tag_value_query 0 90 (AInt 1) (AInt 42) (AInt 2) "browser"
             (AStr "Chrome") in
  dict_get String.eqb "project_id" (q_filters q) = Some [AInt 1] /\
  dict_get String.eqb "issue" (q_filters q) = Some [AInt 42] /\
  dict_get String.eqb "environment" (q_filters q) = Some [AInt 2].
Proof.
  intros q.
  destruct (issue_filter_follows_group_id 0 90 (AInt 1) (AInt 42) (AInt 2)
              "browser" (AStr "Chrome") None true) as (Htag & _).
  destruct (Htag q) as ((Hp & Hi) & He).
  - right. right. left. reflexivity.
  - split; [exact Hp|]. split; [exact Hi|exact He].
Defined.

Lemma identity_clauses_list_true_values_witness :
  In ("email", "IN", LList [AStr "jane@example.com"])
    (or_conditions_of [anonymous; jane]) /\
  truthy (VStr "jane@example.com") = true.
Proof.
  assert (H : In ("email", "IN", LList [AStr "jane@example.com"])
                (or_conditions_of [anonymous; jane])).
  { left. reflexivity. }
  split; [exact H|].
  destruct (identity_clauses_list_true_values [anonymous; jane] "email" "IN"
              (LList [AStr "jane@example.com"]) H)
    as (_ & field & ids & _ & Heq & _ & Hall).
  inversion Heq; subst ids.
  exact (proj1 (Hall (AStr "jane@example.com") (or_introl eq_refl))).
Defined.

Lemma user_counts_members_are_answer_rows_witness :
  let rows := [(AInt 10, VInt 3)] in
  exists counts,
    fst (get_groups_user_counts (answering (VDict rows)) (AInt 1)
           [AInt 10; AInt 11] (AInt 1) noon) = Ret counts /\
    dd_contains counts (AInt 10) = true /\
    dd_contains counts (AInt 11) = false.
Proof.
  intros rows.
  destruct (user_counts_members_are_answer_rows (answering (VDict rows))
              (AInt 1) [AInt 10; AInt 11] (AInt 1) noon) as (Hrows & _).
  destruct (Hrows rows eq_refl) as (counts & Hrun & Hmem).
  exists counts. split; [exact Hrun|]. rewrite !Hmem. split; reflexivity.
Defined.
